(** * AthleteAI demo server: request routing and response shaping

    A shallow embedding of [server.py] (class [AthleteAIHandler]) and the
    properties of its request router.

    Representation choices.
    - [bytes] and [str] are both [string]: a byte string is the sequence of
      its bytes; a Python [str] is represented by its UTF-8 encoding (lone
      surrogates, which [json.loads] can build from [\uXXXX] escapes, take
      the three-byte form).  Equality, emptiness, concatenation,
      [startswith] and [split('@')] on ASCII separators agree with Python on
      this representation.
    - Python exceptions are an error monad; the handler object (header
      buffer and output stream) is threaded as explicit state.
    - The clock, the texts of interpreter exceptions and the inherited
      static file server are inputs of the model ([env]).
    - [handle] is the handling of an OPTIONS, GET or POST request whose
      request line carried an accepted version 1.x; [serve] adds the
      HTTP/0.9 mode and what the base class does by itself (HEAD, refused
      requests).
    - Failures of the interpreter for lack of resources (a read or an
      integer too large, JSON nested too deeply to decode or to encode)
      and an exception escaping the inherited static file server are not
      modelled; the statements below either assume the outcome of the step
      concerned or hold whichever way it ends. *)

From Stdlib Require Import ZArith NArith List String Ascii Bool DecimalString Lia.
Import ListNotations.

Local Open Scope string_scope.
Local Open Scope Z_scope.

Set Warnings "-register-all".

(** ** Python values produced by [json.loads] *)

(** A float is kept as the decimal literal it was read from, which
    determines the double: [FDec neg m e] is (-1)^neg * m * 10^e. *)
Inductive pyfloat :=
| FNaN
| FInf (neg : bool)
| FDec (neg : bool) (mant : N) (exp10 : Z).

Inductive json :=
| JNull
| JBool (b : bool)
| JInt (z : Z)
| JFloat (f : pyfloat)
| JStr (s : string)
| JList (l : list json)
| JDict (d : list (string * json)).

(** A [dict] with [str] keys: association list in insertion order, each key
    at most once. *)
Definition dict := list (string * json).

Fixpoint dict_lookup (k : string) (d : dict) : option json :=
  match d with
  | [] => None
  | (k', v) :: d' => if String.eqb k k' then Some v else dict_lookup k d'
  end.

(** [d[k] = v]: an existing key keeps its position. *)
Fixpoint dict_set (k : string) (v : json) (d : dict) : dict :=
  match d with
  | [] => [(k, v)]
  | (k', v') :: d' =>
      if String.eqb k k' then (k', v) :: d' else (k', v') :: dict_set k v d'
  end.

(** ** Exceptions *)

(** The exception classes that can arise while a request is handled, with
    what the model knows of the message; [exc_str] of the environment
    gives [str(e)]. *)
Inductive exn :=
| JSONDecodeError
| UnicodeDecodeError
| ValueError (detail : string)
| TypeError (detail : string)
| AttributeError (detail : string)
| KeyError (detail : string).

Inductive result (A : Type) :=
| Ok (a : A)
| Raise (e : exn).
Arguments Ok {A} a.
Arguments Raise {A} e.

Definition rbind {A B} (r : result A) (k : A -> result B) : result B :=
  match r with
  | Ok a => k a
  | Raise e => Raise e
  end.

Declare Scope py_scope.
Delimit Scope py_scope with py.
Notation "x <- r ;; k" := (rbind r (fun x => k))
  (at level 61, r at next level, right associativity) : py_scope.

(** ** Python primitives used by the handlers *)

Definition type_name (v : json) : string :=
  match v with
  | JNull => "NoneType"
  | JBool _ => "bool"
  | JInt _ => "int"
  | JFloat _ => "float"
  | JStr _ => "str"
  | JList _ => "list"
  | JDict _ => "dict"
  end.

(** [data.get(key, default)]: only a [dict] has the method. *)
Definition py_get (data : json) (key : string) (default : json) : result json :=
  match data with
  | JDict d =>
      match dict_lookup key d with
      | Some v => Ok v
      | None => Ok default
      end
  | _ => Raise (AttributeError ("'" ++ type_name data ++ "' object has no attribute 'get'"))
  end.

(** The double nearest to m * 10^e is zero exactly when
    m * 10^e <= 2^-1075 (ties go to the even neighbour, which is 0). *)
Definition float_is_zero (f : pyfloat) : bool :=
  match f with
  | FNaN => false
  | FInf _ => false
  | FDec _ m e =>
      if (m =? 0)%N then true
      else if 0 <=? e then false
      else Z.of_N m * 2 ^ 1075 <=? 10 ^ (- e)
  end.

(** [bool(v)] *)
Definition truthy (v : json) : bool :=
  match v with
  | JNull => false
  | JBool b => b
  | JInt z => negb (z =? 0)
  | JFloat f => negb (float_is_zero f)
  | JStr s => negb (String.eqb s "")
  | JList l => match l with [] => false | _ => true end
  | JDict d => match d with [] => false | _ => true end
  end.

Definition hashable (v : json) : bool :=
  match v with
  | JList _ | JDict _ => false
  | _ => true
  end.

(** [s == v] for a [str] s *)
Definition str_eq (s : string) (v : json) : bool :=
  match v with
  | JStr s' => String.eqb s s'
  | _ => false
  end.

(** [s.split(sep)[0]] for a one-character separator: the text before the
    first occurrence, or all of [s]. *)
Fixpoint before_sep (sep : ascii) (s : string) : string :=
  match s with
  | EmptyString => EmptyString
  | String c s' => if Ascii.eqb c sep then EmptyString else String c (before_sep sep s')
  end.

(** [v.split('@')[0]] *)
Definition py_split_first (v : json) : result string :=
  match v with
  | JStr s => Ok (before_sep "@"%char s)
  | _ => Raise (AttributeError ("'" ++ type_name v ++ "' object has no attribute 'split'"))
  end.

(** [k in d] for a dict with [str] keys: hashing an unhashable key raises. *)
Definition dict_contains {V} (k : json) (d : list (string * V)) : result bool :=
  match k with
  | JList _ | JDict _ => Raise (TypeError ("unhashable type: '" ++ type_name k ++ "'"))
  | JStr s => Ok (existsb (fun kv => String.eqb s (fst kv)) d)
  | _ => Ok false
  end.

(** [d[k]] *)
Definition dict_getitem {V} (k : json) (d : list (string * V)) : result V :=
  match k with
  | JList _ | JDict _ => Raise (TypeError ("unhashable type: '" ++ type_name k ++ "'"))
  | JStr s =>
      match find (fun kv => String.eqb s (fst kv)) d with
      | Some kv => Ok (snd kv)
      | None => Raise (KeyError s)
      end
  | _ => Raise (KeyError (type_name k))
  end.

(** ** Environment of one request *)

(** What the inherited [SimpleHTTPRequestHandler.do_GET] sends for a path
    when it replies: status, header fields, body.  It finishes its headers
    through [self.end_headers()], which is the override of this class. *)
Record static_reply := {
  st_code : Z;
  st_message : string;
  st_headers : list (string * string);
  st_body : string
}.

Record env := {
  now_timestamp : string;            (* str(datetime.now().timestamp()) *)
  now_isoformat : string;            (* datetime.now().isoformat() *)
  exc_str : exn -> string;           (* str(e) *)
  version_string : string;           (* Server header of the base class *)
  date_time_string : string;         (* Date header of the base class *)
  error_page : Z -> string -> string; (* HTML body of send_error *)
  static_do_GET : string -> static_reply
}.

(** ** The request handlers *)

Record demo_user := {
  du_password : string;
  du_role : string;
  du_name : string
}.

Definition demo_users : list (string * demo_user) :=
  [ ("athlete@demo.com", {| du_password := "password123"; du_role := "athlete"; du_name := "Demo Athlete" |});
    ("coach@demo.com", {| du_password := "password123"; du_role := "coach"; du_name := "Demo Coach" |});
    ("admin@demo.com", {| du_password := "password123"; du_role := "admin"; du_name := "Demo Admin" |}) ].

Local Open Scope py_scope.

Definition handle_login (e : env) (data : json) : result json :=
  email <- py_get data "email" (JStr "") ;;
  password <- py_get data "password" (JStr "") ;;
  found <- dict_contains email demo_users ;;
  authenticated <-
    (if found : bool
     then u <- dict_getitem email demo_users ;; Ok (str_eq (du_password u) password)
     else Ok false) ;;
  if authenticated : bool then
    local <- py_split_first email ;;
    u_name <- dict_getitem email demo_users ;;
    u_role <- dict_getitem email demo_users ;;
    Ok (JDict
          [ ("success", JBool true);
            ("user", JDict [ ("id", JStr ("user_" ++ local));
                             ("email", email);
                             ("name", JStr (du_name u_name));
                             ("role", JStr (du_role u_role)) ]);
            ("token", JStr ("demo_token_" ++ now_timestamp e)) ])
  else
    Ok (JDict [ ("success", JBool false); ("error", JStr "Invalid credentials") ]).

Definition handle_register (e : env) (data : json) : result json :=
  name <- py_get data "name" (JStr "") ;;
  email <- py_get data "email" (JStr "") ;;
  password <- py_get data "password" (JStr "") ;;
  role <- py_get data "role" (JStr "athlete") ;;
  if negb (truthy name) || negb (truthy email) || negb (truthy password) then
    Ok (JDict [ ("success", JBool false); ("error", JStr "Missing required fields") ])
  else
    Ok (JDict
          [ ("success", JBool true);
            ("user", JDict [ ("id", JStr ("user_" ++ now_timestamp e));
                             ("name", name);
                             ("email", email);
                             ("role", role) ]) ]).

Definition handle_training_session (e : env) (data : json) : result json :=
  Ok (JDict
        [ ("success", JBool true);
          ("sessionId", JStr ("session_" ++ now_timestamp e));
          ("message", JStr "Training session saved successfully") ]).

Definition handle_ai_analysis (e : env) (data : json) : result json :=
  Ok (JDict
        [ ("success", JBool true);
          ("analysisId", JStr ("analysis_" ++ now_timestamp e));
          ("message", JStr "AI analysis saved successfully") ]).

Definition config : json :=
  JDict
    [ ("appName", JStr "AthleteAI");
      ("version", JStr "1.0.0");
      ("features", JDict [ ("aiTesting", JBool true);
                           ("faceRecognition", JBool true);
                           ("offlineMode", JBool true);
                           ("pwa", JBool true) ]) ].

Local Close Scope py_scope.

(** ** Library functions on the request body

    [int], [bytes.decode('utf-8')] and [json.loads] are modelled as total
    functions into the error monad.  The interpreter's resource limits
    (recursion depth, the digit limit of [int]) are outside the model. *)

Module PyLib.

Definition code (c : ascii) : N := N_of_ascii c.

Definition between (lo hi x : N) : bool := ((lo <=? x) && (x <=? hi))%N.

Definition is_digit (c : ascii) : bool := between 48 57 (code c).

Definition digit_val (c : ascii) : N := (code c - 48)%N.

(** *** [int(s)] in base 10 *)

(** White space [int] skips around the digits. *)
Definition is_space (c : ascii) : bool :=
  between 9 13 (code c) || (code c =? 32)%N.

(** Drops leading white space; U+0085 and U+00A0, the other two blanks a
    header value can hold, are two bytes here. *)
Fixpoint lstrip (cs : list ascii) : list ascii :=
  match cs with
  | c :: cs' =>
      if is_space c then lstrip cs'
      else
        match cs' with
        | c' :: cs'' =>
            if ((code c =? 194) && ((code c' =? 133) || (code c' =? 160)))%N
            then lstrip cs'' else cs
        | [] => cs
        end
  | [] => []
  end.

Definition rstrip_rev (cs : list ascii) : list ascii :=
  (fix go (rs : list ascii) : list ascii :=
     match rs with
     | c :: rs' =>
         if is_space c then go rs'
         else
           match rs' with
           | c' :: rs'' =>
               if ((code c' =? 194) && ((code c =? 133) || (code c =? 160)))%N
               then go rs'' else rs
           | [] => rs
           end
     | [] => []
     end) (rev cs).

Definition strip (cs : list ascii) : list ascii := rev (rstrip_rev (lstrip cs)).

(** Digits with single underscores between them; [after_digit] tells
    whether the previous character was a digit. *)
Fixpoint int_digits (acc : N) (after_digit : bool) (cs : list ascii) : option N :=
  match cs with
  | [] => if after_digit then Some acc else None
  | c :: cs' =>
      if is_digit c then int_digits (acc * 10 + digit_val c)%N true cs'
      else if (code c =? 95)%N && after_digit then int_digits acc false cs'
      else None
  end.

Definition int_literal (cs : list ascii) : option Z :=
  match strip cs with
  | "-"%char :: ds => option_map (fun n => - Z.of_N n) (int_digits 0 false ds)
  | "+"%char :: ds => option_map Z.of_N (int_digits 0 false ds)
  | ds => option_map Z.of_N (int_digits 0 false ds)
  end.

(** [int(x)] where [x] is a header value: [None] when the header is
    absent.  (The interpreter's limit on the number of digits is not
    modelled.) *)
Definition py_int (x : option string) : result Z :=
  match x with
  | None => Raise (TypeError "int() argument must be a string, a bytes-like object or a real number, not 'NoneType'")
  | Some s =>
      match int_literal (list_ascii_of_string s) with
      | Some z => Ok z
      | None => Raise (ValueError ("invalid literal for int() with base 10: '" ++ s ++ "'"))
      end
  end.

(** *** [bytes.decode('utf-8')] *)

Definition is_cont (b : N) : bool := between 128 191 b.

(** Well-formed UTF-8: no overlong forms, no surrogates, nothing above
    U+10FFFF. *)
Fixpoint utf8_valid (bs : list N) : bool :=
  match bs with
  | [] => true
  | b0 :: r0 =>
      if (b0 <? 128)%N then utf8_valid r0
      else if (b0 <? 194)%N then false
      else if (b0 <? 224)%N then
        match r0 with
        | b1 :: r1 => is_cont b1 && utf8_valid r1
        | _ => false
        end
      else if (b0 <? 240)%N then
        match r0 with
        | b1 :: b2 :: r2 =>
            between (if (b0 =? 224)%N then 160 else 128)
                    (if (b0 =? 237)%N then 159 else 191) b1
            && is_cont b2 && utf8_valid r2
        | _ => false
        end
      else if (b0 <? 245)%N then
        match r0 with
        | b1 :: b2 :: b3 :: r3 =>
            between (if (b0 =? 240)%N then 144 else 128)
                    (if (b0 =? 244)%N then 143 else 191) b1
            && is_cont b2 && is_cont b3 && utf8_valid r3
        | _ => false
        end
      else false
  end.

Definition decode_utf8 (b : string) : result string :=
  if utf8_valid (map code (list_ascii_of_string b)) then Ok b
  else Raise UnicodeDecodeError.

End PyLib.

(** *** [json.loads]

    Two passes, each one step per input item, so the decoder is total: a
    character-level scanner producing tokens, then a stack machine building
    the value.  Every rejection of the syntax is a [JSONDecodeError].  (The
    interpreter's own refusals, RecursionError for text nested too deeply
    and ValueError for an integer beyond its digit limit, are not
    modelled.) *)

Module JsonDecoder.
Import PyLib.
Local Open Scope list_scope.

Inductive token :=
| TLBracket | TRBracket | TLBrace | TRBrace | TComma | TColon
| TScalar (v : json).

(** **** Numbers and literal names *)

Fixpoint take_digits (cs : list ascii) : list ascii * list ascii :=
  match cs with
  | c :: cs' =>
      if is_digit c then let (ds, r) := take_digits cs' in (c :: ds, r)
      else ([], cs)
  | [] => ([], [])
  end.

Definition digits_val (ds : list ascii) : N :=
  fold_left (fun acc c => (acc * 10 + digit_val c)%N) ds 0%N.

(** The whole word must be a number: an optional minus, an integer part
    without leading zero, an optional fraction (a dot and digits), an
    optional exponent (e or E, a sign, digits).  It is an [int] when there
    is neither fraction nor exponent. *)
Definition number_literal (w : list ascii) : option json :=
  let '(neg, w1) :=
    match w with
    | "-"%char :: r => (true, r)
    | _ => (false, w)
    end in
  let '(ip, w2) := take_digits w1 in
  let int_ok :=
    match ip with
    | [] => false
    | d :: ds => negb ((code d =? 48)%N && negb (Nat.eqb (List.length ds) 0))
    end in
  let '(frac, w3) :=
    match w2 with
    | "."%char :: r => let (f, r') := take_digits r in (Some f, r')
    | _ => (None, w2)
    end in
  let frac_ok := match frac with Some [] => false | _ => true end in
  let '(ex, w4) :=
    match w3 with
    | c :: r =>
        if ((code c =? 101) || (code c =? 69))%N then
          let '(eneg, r1) :=
            match r with
            | "-"%char :: r' => (true, r')
            | "+"%char :: r' => (false, r')
            | _ => (false, r)
            end in
          let (ed, r2) := take_digits r1 in
          (Some (eneg, ed), r2)
        else (None, w3)
    | [] => (None, w3)
    end in
  let ex_ok := match ex with Some (_, []) => false | _ => true end in
  let rest_ok := match w4 with [] => true | _ => false end in
  if int_ok && frac_ok && ex_ok && rest_ok then
    match frac, ex with
    | None, None =>
        Some (JInt (if neg : bool then - Z.of_N (digits_val ip) else Z.of_N (digits_val ip)))
    | _, _ =>
        let fd := match frac with Some f => f | None => [] end in
        let e := match ex with
                 | Some (eneg, ed) =>
                     if eneg : bool then - Z.of_N (digits_val ed) else Z.of_N (digits_val ed)
                 | None => 0
                 end in
        Some (JFloat (FDec neg (digits_val (ip ++ fd)) (e - Z.of_nat (List.length fd))))
    end
  else None.

Definition word_value (w : list ascii) : option json :=
  let s := string_of_list_ascii w in
  if String.eqb s "null" then Some JNull
  else if String.eqb s "true" then Some (JBool true)
  else if String.eqb s "false" then Some (JBool false)
  else if String.eqb s "NaN" then Some (JFloat FNaN)
  else if String.eqb s "Infinity" then Some (JFloat (FInf false))
  else if String.eqb s "-Infinity" then Some (JFloat (FInf true))
  else number_literal w.

(** **** Strings *)

Definition byte (n : N) : ascii := ascii_of_N n.

(** UTF-8 bytes of a code point, last byte first (surrogates included). *)
Definition utf8_rev (cp : N) : list ascii :=
  (if cp <? 128 then [byte cp]
   else if cp <? 2048 then
     [byte (128 + cp mod 64); byte (192 + cp / 64)]
   else if cp <? 65536 then
     [byte (128 + cp mod 64); byte (128 + (cp / 64) mod 64); byte (224 + cp / 4096)]
   else
     [byte (128 + cp mod 64); byte (128 + (cp / 64) mod 64);
      byte (128 + (cp / 4096) mod 64); byte (240 + cp / 262144)])%N.

Definition hex_val (c : ascii) : option N :=
  let n := code c in
  if between 48 57 n then Some (n - 48)%N
  else if between 65 70 n then Some (n - 55)%N
  else if between 97 102 n then Some (n - 87)%N
  else None.

Definition is_high (cp : N) : bool := between 55296 56319 cp.
Definition is_low (cp : N) : bool := between 56320 57343 cp.

(** A pending high surrogate that was not followed by a low one stays. *)
Definition flush (hi : option N) (acc : list ascii) : list ascii :=
  match hi with
  | Some h => utf8_rev h ++ acc
  | None => acc
  end.

Definition escape_char (c : ascii) : option ascii :=
  let n := code c in
  (if n =? 34 then Some (byte 34)          (* quote *)
   else if n =? 92 then Some (byte 92)     (* backslash *)
   else if n =? 47 then Some (byte 47)     (* slash *)
   else if n =? 98 then Some (byte 8)      (* b *)
   else if n =? 102 then Some (byte 12)    (* f *)
   else if n =? 110 then Some (byte 10)    (* n *)
   else if n =? 114 then Some (byte 13)    (* r *)
   else if n =? 116 then Some (byte 9)     (* t *)
   else None)%N.

(** **** The scanner *)

Inductive lex_state :=
| LIdle
| LWord (rev_chars : list ascii)
| LStr (acc : list ascii) (hi : option N)
| LEsc (acc : list ascii) (hi : option N)
| LHex (acc : list ascii) (hi : option N) (need : nat) (cp : N).

Definition is_ws (c : ascii) : bool :=
  let n := code c in ((n =? 32) || (n =? 9) || (n =? 10) || (n =? 13))%N.

Definition punct (c : ascii) : option token :=
  let n := code c in
  (if n =? 91 then Some TLBracket
   else if n =? 93 then Some TRBracket
   else if n =? 123 then Some TLBrace
   else if n =? 125 then Some TRBrace
   else if n =? 44 then Some TComma
   else if n =? 58 then Some TColon
   else None)%N.

Definition end_word (w : list ascii) : option (list token) :=
  option_map (fun v => [TScalar v]) (word_value (rev w)).

(** What follows a complete [\uXXXX] escape with value [cp]. *)
Definition after_escape (acc : list ascii) (hi : option N) (cp : N) : lex_state :=
  match hi with
  | Some h =>
      if is_low cp then
        LStr (utf8_rev (65536 + (h - 55296) * 1024 + (cp - 56320))%N ++ acc) None
      else if is_high cp then LStr (utf8_rev h ++ acc) (Some cp)
      else LStr (utf8_rev cp ++ utf8_rev h ++ acc) None
  | None =>
      if is_high cp then LStr acc (Some cp) else LStr (utf8_rev cp ++ acc) None
  end.

Definition lex_step (st : lex_state) (c : ascii) : option (lex_state * list token) :=
  match st with
  | LIdle =>
      if is_ws c then Some (LIdle, [])
      else match punct c with
           | Some t => Some (LIdle, [t])
           | None =>
               if (code c =? 34)%N then Some (LStr [] None, [])
               else Some (LWord [c], [])
           end
  | LWord w =>
      if is_ws c then option_map (fun ts => (LIdle, ts)) (end_word w)
      else match punct c with
           | Some t => option_map (fun ts => (LIdle, ts ++ [t])) (end_word w)
           | None =>
               if (code c =? 34)%N
               then option_map (fun ts => (LStr [] None, ts)) (end_word w)
               else Some (LWord (c :: w), [])
           end
  | LStr acc hi =>
      if (code c =? 34)%N then
        Some (LIdle, [TScalar (JStr (string_of_list_ascii (rev (flush hi acc))))])
      else if (code c =? 92)%N then Some (LEsc acc hi, [])
      else if (code c <? 32)%N then None
      else Some (LStr (c :: flush hi acc) None, [])
  | LEsc acc hi =>
      if (code c =? 117)%N then Some (LHex acc hi 4 0%N, [])
      else match escape_char c with
           | Some b => Some (LStr (b :: flush hi acc) None, [])
           | None => None
           end
  | LHex acc hi need cp =>
      match hex_val c, need with
      | Some d, S O => Some (after_escape acc hi (cp * 16 + d)%N, [])
      | Some d, S n => Some (LHex acc hi n (cp * 16 + d)%N, [])
      | _, _ => None
      end
  end.

Definition lex_end (st : lex_state) : option (list token) :=
  match st with
  | LIdle => Some []
  | LWord w => end_word w
  | _ => None
  end.

Fixpoint lex (st : lex_state) (cs : list ascii) : option (list token) :=
  match cs with
  | [] => lex_end st
  | c :: cs' =>
      match lex_step st c with
      | Some (st', out) => option_map (app out) (lex st' cs')
      | None => None
      end
  end.

(** **** The value builder *)

Inductive frame :=
| FList (rev_items : list json)
| FDict (d : dict) (key : string).

Inductive pstate :=
| PValue            (* a value must come *)
| PValueOrClose     (* just after '[' *)
| PKeyOrClose       (* just after '{' *)
| PKey              (* after ',' in an object *)
| PColon
| PAfter            (* after a value inside a container *)
| PDone (v : json).

Definition complete (v : json) (stack : list frame) : pstate * list frame :=
  match stack with
  | [] => (PDone v, [])
  | FList items :: st => (PAfter, FList (v :: items) :: st)
  | FDict d k :: st => (PAfter, FDict (dict_set k v d) k :: st)
  end.

Definition start_value (t : token) (stack : list frame) : option (pstate * list frame) :=
  match t with
  | TScalar v => Some (complete v stack)
  | TLBracket => Some (PValueOrClose, FList [] :: stack)
  | TLBrace => Some (PKeyOrClose, FDict [] "" :: stack)
  | _ => None
  end.

Definition take_key (t : token) (stack : list frame) : option (pstate * list frame) :=
  match t, stack with
  | TScalar (JStr k), FDict d _ :: st => Some (PColon, FDict d k :: st)
  | _, _ => None
  end.

Definition close (t : token) (stack : list frame) : option (pstate * list frame) :=
  match t, stack with
  | TRBracket, FList items :: st => Some (complete (JList (rev items)) st)
  | TRBrace, FDict d _ :: st => Some (complete (JDict d) st)
  | _, _ => None
  end.

Definition parse_step (ps : pstate) (stack : list frame) (t : token)
  : option (pstate * list frame) :=
  match ps with
  | PValue => start_value t stack
  | PValueOrClose =>
      match t with
      | TRBracket => close t stack
      | _ => start_value t stack
      end
  | PKeyOrClose =>
      match t with
      | TRBrace => close t stack
      | _ => take_key t stack
      end
  | PKey => take_key t stack
  | PColon =>
      match t with
      | TColon => Some (PValue, stack)
      | _ => None
      end
  | PAfter =>
      match t, stack with
      | TComma, FList _ :: _ => Some (PValue, stack)
      | TComma, FDict _ _ :: _ => Some (PKey, stack)
      | _, _ => close t stack
      end
  | PDone _ => None
  end.

Fixpoint parse (ps : pstate) (stack : list frame) (ts : list token) : option json :=
  match ts with
  | [] => match ps with PDone v => Some v | _ => None end
  | t :: ts' =>
      match parse_step ps stack t with
      | Some (ps', stack') => parse ps' stack' ts'
      | None => None
      end
  end.

Definition has_bom (cs : list ascii) : bool :=
  match cs with
  | a :: b :: c :: _ => ((code a =? 239) && (code b =? 187) && (code c =? 191))%N
  | _ => false
  end.

Definition json_loads (s : string) : result json :=
  let cs := list_ascii_of_string s in
  if has_bom cs then Raise JSONDecodeError
  else
    match lex LIdle cs with
    | Some ts =>
        match parse PValue [] ts with
        | Some v => Ok v
        | None => Raise JSONDecodeError
        end
    | None => Raise JSONDecodeError
    end.

End JsonDecoder.

Import PyLib JsonDecoder.

(** ** The handler object: header buffer and output stream *)

Inductive line :=
| StatusLine (code : Z) (message : string)
| HeaderLine (keyword value : string).

Inductive payload :=
| JsonText (data : json)     (* json.dumps(data).encode('utf-8') *)
| Bytes (b : string).

(** What reaches [wfile]: a flushed header block, or body bytes. *)
Inductive chunk :=
| Head (ls : list line)
| Body (p : payload).

(** The handler object: the protocol version [parse_request] left in
    [request_version] ('HTTP/0.9' until a request line with a version was
    accepted), the header buffer and the output stream. *)
Record handler := {
  request_version : string;
  headers_buffer : list line;
  wfile : list chunk
}.

(** The test [self.request_version != 'HTTP/0.9'] fails. *)
Definition is_http09 (v : string) : bool := String.eqb v "HTTP/0.9".

(** A method of the handler: it may raise, and it changes the handler. *)
Definition M (A : Type) : Type := handler -> result A * handler.

Definition ret {A} (a : A) : M A := fun h => (Ok a, h).

Definition bind {A B} (m : M A) (k : A -> M B) : M B :=
  fun h =>
    match m h with
    | (Ok a, h') => k a h'
    | (Raise ex, h') => (Raise ex, h')
    end.

Definition lift {A} (r : result A) : M A := fun h => (r, h).

(** try: m except Exception as ex: handler ex *)
Definition try_except {A} (m : M A) (except : exn -> M A) : M A :=
  fun h =>
    match m h with
    | (Ok a, h') => (Ok a, h')
    | (Raise ex, h') => except ex h'
    end.

Declare Scope http_scope.
Delimit Scope http_scope with http.
Notation "x <- m ;; k" := (bind m (fun x => k))
  (at level 61, m at next level, right associativity) : http_scope.
Notation "m ;; k" := (bind m (fun _ => k))
  (at level 61, right associativity) : http_scope.

Local Open Scope http_scope.

(** *** Base class ([BaseHTTPRequestHandler]) *)

(** The three methods below do nothing in HTTP/0.9 mode: such a response
    has no status line and no header. *)
Definition send_response_only (code : Z) (message : string) : M unit :=
  fun h =>
    if is_http09 (request_version h) then (Ok tt, h)
    else (Ok tt, {| request_version := request_version h;
                    headers_buffer := headers_buffer h ++ [StatusLine code message];
                    wfile := wfile h |}).

Definition send_header (keyword value : string) : M unit :=
  fun h =>
    if is_http09 (request_version h) then (Ok tt, h)
    else (Ok tt, {| request_version := request_version h;
                    headers_buffer := headers_buffer h ++ [HeaderLine keyword value];
                    wfile := wfile h |}).

Definition base_end_headers : M unit :=
  fun h =>
    if is_http09 (request_version h) then (Ok tt, h)
    else (Ok tt, {| request_version := request_version h;
                    headers_buffer := [];
                    wfile := wfile h ++ [Head (headers_buffer h)] |}).

Definition wfile_write (p : payload) : M unit :=
  fun h => (Ok tt, {| request_version := request_version h;
                      headers_buffer := headers_buffer h;
                      wfile := wfile h ++ [Body p] |}).

(** Short messages of the status codes this server sends itself. *)
Definition responses (code : Z) : string :=
  if code =? 200 then "OK"
  else if code =? 400 then "Bad Request"
  else if code =? 404 then "Not Found"
  else if code =? 500 then "Internal Server Error"
  else "".

Definition send_response (e : env) (code : Z) (message : option string) : M unit :=
  send_response_only code (match message with Some m => m | None => responses code end) ;;
  send_header "Server" (version_string e) ;;
  send_header "Date" (date_time_string e).

Definition str_of_nat (n : nat) : string := NilZero.string_of_uint (Nat.to_uint n).

(** ** [AthleteAIHandler] *)

Definition end_headers : M unit :=
  send_header "Access-Control-Allow-Origin" "*" ;;
  send_header "Access-Control-Allow-Methods" "GET, POST, PUT, DELETE, OPTIONS" ;;
  send_header "Access-Control-Allow-Headers" "Content-Type, Authorization" ;;
  send_header "Cache-Control" "no-cache, no-store, must-revalidate" ;;
  send_header "Pragma" "no-cache" ;;
  send_header "Expires" "0" ;;
  base_end_headers.

(** The inherited [send_error]; its [self.end_headers()] is the override. *)
Definition send_error (e : env) (code : Z) (message : string) : M unit :=
  let has_body :=
    (200 <=? code) && negb ((code =? 204) || (code =? 205) || (code =? 304)) in
  let page := error_page e code message in
  send_response e code (Some message) ;;
  send_header "Connection" "close" ;;
  (if has_body then
     send_header "Content-Type" "text/html;charset=utf-8" ;;
     send_header "Content-Length" (str_of_nat (String.length page))
   else ret tt) ;;
  end_headers ;;
  if has_body && negb (String.eqb page "") then wfile_write (Bytes page) else ret tt.

Definition send_json_response (e : env) (data : json) : M unit :=
  send_response e 200 None ;;
  send_header "Content-Type" "application/json" ;;
  end_headers ;;
  wfile_write (JsonText data).

Inductive command := OPTIONS | GET | POST.

Record request := {
  rq_command : command;
  path : string;
  content_length : option string;   (* self.headers['Content-Length'] *)
  rfile : string                    (* the bytes the client sent after the headers *)
}.

(** [rfile.read(n)] on the bytes the client sent: up to [n] of them,
    all of them for -1; a smaller [n] is refused.  (An [n] too large to
    allocate, which the interpreter refuses with OverflowError or
    MemoryError, is not modelled.) *)
Fixpoint take (n : nat) (s : string) : string :=
  match n, s with
  | S n', String c s' => String c (take n' s')
  | _, _ => EmptyString
  end.

Definition rfile_read (n : Z) (s : string) : result string :=
  if n <? -1 then Raise (ValueError "read length must be non-negative or -1")
  else if n =? -1 then Ok s
  else Ok (take (Z.to_nat n) s).

Definition do_OPTIONS (e : env) (rq : request) : M unit :=
  send_response e 200 None ;;
  end_headers.

Definition handle_api_get (e : env) (rq : request) : M unit :=
  try_except
    (if String.eqb (path rq) "/api/health" then
       send_json_response e
         (JDict [ ("status", JStr "healthy"); ("timestamp", JStr (now_isoformat e)) ])
     else if String.eqb (path rq) "/api/config" then
       send_json_response e config
     else
       send_error e 404 "API endpoint not found")
    (fun ex => send_error e 500 ("Internal server error: " ++ exc_str e ex)).

(** [super().do_GET()]: the static file server. *)
Definition super_do_GET (e : env) (rq : request) : M unit :=
  let r := static_do_GET e (path rq) in
  send_response e (st_code r) (Some (st_message r)) ;;
  fold_right (fun kv k => send_header (fst kv) (snd kv) ;; k) (ret tt) (st_headers r) ;;
  end_headers ;;
  if String.eqb (st_body r) "" then ret tt else wfile_write (Bytes (st_body r)).

Definition do_GET (e : env) (rq : request) : M unit :=
  if String.prefix "/api/" (path rq) then handle_api_get e rq
  else super_do_GET e rq.

(** The part of [handle_api_post] after the body was parsed. *)
Definition api_post_route (e : env) (rq : request) (data : json) : M unit :=
  response <-
    (if String.eqb (path rq) "/api/auth/login" then
       r <- lift (handle_login e data) ;; ret (Some r)
     else if String.eqb (path rq) "/api/auth/register" then
       r <- lift (handle_register e data) ;; ret (Some r)
     else if String.eqb (path rq) "/api/training/sessions" then
       r <- lift (handle_training_session e data) ;; ret (Some r)
     else if String.eqb (path rq) "/api/ai/analysis" then
       r <- lift (handle_ai_analysis e data) ;; ret (Some r)
     else
       send_error e 404 "API endpoint not found" ;; ret None) ;;
  match response with
  | Some r => send_json_response e r
  | None => ret tt       (* return *)
  end.

(** The two [except] clauses of [handle_api_post], in order. *)
Definition api_post_except (e : env) (ex : exn) : M unit :=
  match ex with
  | JSONDecodeError => send_error e 400 "Invalid JSON"
  | _ => send_error e 500 ("Internal server error: " ++ exc_str e ex)
  end.

Definition handle_api_post (e : env) (rq : request) : M unit :=
  try_except
    (content_length <- lift (py_int (content_length rq)) ;;
     post_data <- lift (rfile_read content_length (rfile rq)) ;;
     text <- lift (decode_utf8 post_data) ;;
     data <- lift (json_loads text) ;;
     api_post_route e rq data)
    (api_post_except e).

Definition do_POST (e : env) (rq : request) : M unit :=
  if String.prefix "/api/" (path rq) then handle_api_post e rq
  else send_error e 404 "Not Found".

Local Close Scope http_scope.

(** ** One request, and what the client receives *)

(** The handler when a method is called for a request line that carried
    an accepted version 1.x. *)
Definition fresh : handler :=
  {| request_version := "HTTP/1.1"; headers_buffer := []; wfile := [] |}.

Definition dispatch (e : env) (rq : request) : M unit :=
  match rq_command rq with
  | OPTIONS => do_OPTIONS e rq
  | GET => do_GET e rq
  | POST => do_POST e rq
  end.

(** The output stream after the request was handled. *)
Definition handle (e : env) (rq : request) : list chunk :=
  wfile (snd (dispatch e rq fresh)).

Record response := {
  status : Z;
  reason : string;
  headers : list (string * string);
  body : list payload
}.

Fixpoint header_fields (ls : list line) : list (string * string) :=
  match ls with
  | [] => []
  | HeaderLine k v :: ls' => (k, v) :: header_fields ls'
  | StatusLine _ _ :: ls' => header_fields ls'
  end.

Fixpoint leading_bodies (w : list chunk) : list payload :=
  match w with
  | Body p :: w' => p :: leading_bodies w'
  | _ => []
  end.

(** The responses on a stream: one per flushed block that starts with a
    status line, each with the body bytes written after it. *)
Fixpoint responses_on (w : list chunk) : list response :=
  match w with
  | [] => []
  | Head (StatusLine c m :: ls) :: w' =>
      {| status := c; reason := m; headers := header_fields ls;
         body := leading_bodies w' |} :: responses_on w'
  | _ :: w' => responses_on w'
  end.

(** ** Vocabulary of the statements *)

(** The first three statements of [handle_api_post]'s [try] block and the
    [json.loads] call, as one function of the request. *)
Definition read_json (rq : request) : result json :=
  (n <- py_int (content_length rq) ;;
   post_data <- rfile_read n (rfile rq) ;;
   text <- decode_utf8 post_data ;;
   json_loads text)%py.

(** [data.get(key, default)] on the members of an object. *)
Definition field (d : dict) (key : string) (default : json) : json :=
  match dict_lookup key d with
  | Some v => v
  | None => default
  end.

(** The six header fields the specification requires on every response. *)
Definition fixed_headers : list (string * string) :=
  [ ("Access-Control-Allow-Origin", "*");
    ("Access-Control-Allow-Methods", "GET, POST, PUT, DELETE, OPTIONS");
    ("Access-Control-Allow-Headers", "Content-Type, Authorization");
    ("Cache-Control", "no-cache, no-store, must-revalidate");
    ("Pragma", "no-cache");
    ("Expires", "0") ].

Definition has_fixed_headers (r : response) : Prop := incl fixed_headers (headers r).

Definition base_headers (e : env) : list (string * string) :=
  [ ("Server", version_string e); ("Date", date_time_string e) ].

(** A 200 response carrying [json.dumps(data)]. *)
Definition json_response (e : env) (data : json) : response :=
  {| status := 200;
     reason := "OK";
     headers := (base_headers e ++ [("Content-Type", "application/json")] ++ fixed_headers)%list;
     body := [JsonText data] |}.

(** An error response with the given status and reason phrase. *)
Definition error_response (e : env) (code : Z) (message : string) : response :=
  let has_body :=
    (200 <=? code) && negb ((code =? 204) || (code =? 205) || (code =? 304)) in
  let page := error_page e code message in
  {| status := code;
     reason := message;
     headers :=
       (base_headers e ++ [("Connection", "close")]
        ++ (if has_body
            then [("Content-Type", "text/html;charset=utf-8");
                  ("Content-Length", str_of_nat (String.length page))]
            else [])
        ++ fixed_headers)%list;
     body := if has_body && negb (String.eqb page "") then [Bytes page] else [] |}.

(** The response to a preflight request. *)
Definition preflight_response (e : env) : response :=
  {| status := 200;
     reason := "OK";
     headers := (base_headers e ++ fixed_headers)%list;
     body := [] |}.

(** The response to a GET that the static file server answers. *)
Definition static_response (e : env) (p : string) : response :=
  let r := static_do_GET e p in
  {| status := st_code r;
     reason := st_message r;
     headers := (base_headers e ++ st_headers r ++ fixed_headers)%list;
     body := if String.eqb (st_body r) "" then [] else [Bytes (st_body r)] |}.

Definition invalid_credentials : json :=
  JDict [ ("success", JBool false); ("error", JStr "Invalid credentials") ].

Definition missing_fields : json :=
  JDict [ ("success", JBool false); ("error", JStr "Missing required fields") ].

Definition session_saved (e : env) : json :=
  JDict [ ("success", JBool true);
          ("sessionId", JStr ("session_" ++ now_timestamp e));
          ("message", JStr "Training session saved successfully") ].

Definition analysis_saved (e : env) : json :=
  JDict [ ("success", JBool true);
          ("analysisId", JStr ("analysis_" ++ now_timestamp e));
          ("message", JStr "AI analysis saved successfully") ].

(** *** A concrete environment and concrete requests *)

Definition sample_env : env :=
  {| now_timestamp := "1730000000.123456";
     now_isoformat := "2024-10-27T04:33:20.123456";
     exc_str := fun ex =>
                  match ex with
                  | JSONDecodeError => "Expecting value: line 1 column 1 (char 0)"
                  | UnicodeDecodeError => "'utf-8' codec can't decode byte 0xff in position 0: invalid start byte"
                  | ValueError d | TypeError d | AttributeError d | KeyError d => d
                  end;
     version_string := "SimpleHTTP/0.6 Python/3.12.0";
     date_time_string := "Sun, 27 Oct 2024 03:33:20 GMT";
     error_page := fun code m => "<html><body><p>Message: " ++ m ++ ".</p></body></html>";
     static_do_GET := fun p => {| st_code := 404; st_message := "File not found";
                                  st_headers := [("Connection", "close")];
                                  st_body := "<html><body><p>Message: File not found.</p></body></html>" |} |}.

(** A POST whose Content-Length is the length of its body. *)
Definition post (p : string) (b : string) : request :=
  {| rq_command := POST; path := p;
     content_length := Some (str_of_nat (String.length b)); rfile := b |}.

Definition get (p : string) : request :=
  {| rq_command := GET; path := p; content_length := None; rfile := "" |}.

(** A JSON string literal of a text that needs no escaping. *)
Definition quoted (s : string) : string :=
  String (ascii_of_N 34) s ++ String (ascii_of_N 34) "".

Definition login_body : string :=
  "{" ++ quoted "email" ++ ": " ++ quoted "coach@demo.com" ++ ", "
      ++ quoted "password" ++ ": " ++ quoted "password123" ++ "}".

Definition wrong_password_body : string :=
  "{" ++ quoted "email" ++ ": " ++ quoted "coach@demo.com" ++ ", "
      ++ quoted "password" ++ ": " ++ quoted "letmein" ++ "}".

(** A login whose email is a JSON array. *)
Definition list_email_body : string :=
  "{" ++ quoted "email" ++ ": [], "
      ++ quoted "password" ++ ": " ++ quoted "password123" ++ "}".

Definition list_email_members : dict :=
  [ ("email", JList []); ("password", JStr "password123") ].

(** A body of one byte, 0xFF, which no UTF-8 text contains. *)
Definition not_utf8_request : request :=
  {| rq_command := POST; path := "/api/auth/login";
     content_length := Some "1"; rfile := String (ascii_of_N 255) "" |}.

Definition register_body : string :=
  "{" ++ quoted "name" ++ ": " ++ quoted "Ann" ++ ", "
      ++ quoted "email" ++ ": " ++ quoted "ann@example.org" ++ ", "
      ++ quoted "password" ++ ": " ++ quoted "pw" ++ ", "
      ++ quoted "role" ++ ": " ++ quoted "athlete" ++ "}".

Definition register_members : dict :=
  [ ("name", JStr "Ann"); ("email", JStr "ann@example.org");
    ("password", JStr "pw"); ("role", JStr "athlete") ].

(** A registration whose name is the number 0. *)
Definition zero_name_body : string :=
  "{" ++ quoted "name" ++ ": 0, "
      ++ quoted "email" ++ ": " ++ quoted "ann@example.org" ++ ", "
      ++ quoted "password" ++ ": " ++ quoted "pw" ++ "}".

Definition zero_name_members : dict :=
  [ ("name", JInt 0); ("email", JStr "ann@example.org"); ("password", JStr "pw") ].

(** A POST that carries no Content-Length header. *)
Definition no_length_request : request :=
  {| rq_command := POST; path := "/api/auth/login";
     content_length := None; rfile := login_body |}.

(** ** The router as a decision

    Which reply a request gets, as a function of the request and the
    environment; [perform] is the method that sends it. *)

Inductive reply :=
| ReplyJson (data : json)                 (* send_json_response(data) *)
| ReplyError (code : Z) (message : string) (* send_error(code, message) *)
| ReplyPreflight                          (* the body of do_OPTIONS *)
| ReplyStatic.                            (* super().do_GET() *)

Definition except_reply (e : env) (ex : exn) : reply :=
  match ex with
  | JSONDecodeError => ReplyError 400 "Invalid JSON"
  | _ => ReplyError 500 ("Internal server error: " ++ exc_str e ex)
  end.

Definition handler_reply (e : env) (r : result json) : reply :=
  match r with
  | Ok data => ReplyJson data
  | Raise ex => except_reply e ex
  end.

Definition plan (e : env) (rq : request) : reply :=
  match rq_command rq with
  | OPTIONS => ReplyPreflight
  | GET =>
      if String.prefix "/api/" (path rq) then
        if String.eqb (path rq) "/api/health" then
          ReplyJson (JDict [ ("status", JStr "healthy");
                             ("timestamp", JStr (now_isoformat e)) ])
        else if String.eqb (path rq) "/api/config" then ReplyJson config
        else ReplyError 404 "API endpoint not found"
      else ReplyStatic
  | POST =>
      if String.prefix "/api/" (path rq) then
        match read_json rq with
        | Raise ex => except_reply e ex
        | Ok data =>
            if String.eqb (path rq) "/api/auth/login" then
              handler_reply e (handle_login e data)
            else if String.eqb (path rq) "/api/auth/register" then
              handler_reply e (handle_register e data)
            else if String.eqb (path rq) "/api/training/sessions" then
              handler_reply e (handle_training_session e data)
            else if String.eqb (path rq) "/api/ai/analysis" then
              handler_reply e (handle_ai_analysis e data)
            else ReplyError 404 "API endpoint not found"
        end
      else ReplyError 404 "Not Found"
  end.

Definition perform (e : env) (rq : request) (p : reply) : M unit :=
  match p with
  | ReplyJson data => send_json_response e data
  | ReplyError code message => send_error e code message
  | ReplyPreflight => do_OPTIONS e rq
  | ReplyStatic => super_do_GET e rq
  end.

Definition reply_response (e : env) (rq : request) (p : reply) : response :=
  match p with
  | ReplyJson data => json_response e data
  | ReplyError code message => error_response e code message
  | ReplyPreflight => preflight_response e
  | ReplyStatic => static_response e (path rq)
  end.

(** The body of a successful login for the demo entry [(k, u)]. *)
Definition login_ok (e : env) (k : string) (u : demo_user) : json :=
  JDict [ ("success", JBool true);
          ("user", JDict [ ("id", JStr ("user_" ++ before_sep "@"%char k));
                           ("email", JStr k);
                           ("name", JStr (du_name u));
                           ("role", JStr (du_role u)) ]);
          ("token", JStr ("demo_token_" ++ now_timestamp e)) ].

(** The same request with other bytes after the headers. *)
Definition with_rfile (rq : request) (b : string) : request :=
  {| rq_command := rq_command rq; path := path rq;
     content_length := content_length rq; rfile := b |}.

(** A method returned normally and left no header unsent. *)
Definition finished (r : result unit * handler) : Prop :=
  fst r = Ok tt /\ headers_buffer (snd r) = [].

(** ** Startup: [main] *)

Definition PORT : N := 8000.

Definition str_of_N (n : N) : string := NilZero.string_of_uint (N.to_uint n).

(** An [OSError]: its [errno] and its text [str(e)]. *)
Record os_error := {
  errno : Z;
  os_error_str : string
}.

(** What the socket server does once [main] runs: the constructor
    [TCPServer(...)] raises, or it binds and [serve_forever] runs until it
    raises.  [serve_forever] does not return otherwise. *)
Inductive server_run :=
| BindFails (err : os_error)
| BindInterrupted
| ServeFails (err : os_error)
| ServeInterrupted.

Definition banner : string :=
  "
╔══════════════════════════════════════════════════════════════╗
║                    AthleteAI Platform                       ║
║                                                              ║
║  🚀 Server running at: http://localhost:" ++ str_of_N PORT ++ "                ║
║  📱 PWA ready for installation                               ║
║  🤖 AI features enabled                                      ║
║  📷 Camera access required for full functionality           ║
║                                                              ║
║  Demo Credentials:                                           ║
║  • Athlete: athlete@demo.com / password123                  ║
║  • Coach:   coach@demo.com / password123                    ║
║  • Admin:   admin@demo.com / password123                    ║
║                                                              ║
║  Press Ctrl+C to stop the server                            ║
╚══════════════════════════════════════════════════════════════╝
            ".

Definition newline : string := String (ascii_of_N 10) "".

(** The [except OSError] clause: what it prints. *)
Definition os_error_lines (err : os_error) : list string :=
  if errno err =? 48 then
    [ "❌ Port " ++ str_of_N PORT ++ " is already in use. Please try a different port.";
      "💡 You can specify a different port by modifying the PORT variable in server.py" ]
  else
    [ "❌ Error starting server: " ++ os_error_str err ].

Definition stopped_line : string := newline ++ "🛑 Server stopped by user".

(** [main]: the texts passed to [print], in order, and the exit status. *)
Definition main (run : server_run) : list string * Z :=
  match run with
  | BindFails err => (os_error_lines err, 1)
  | BindInterrupted => ([stopped_line], 0)
  | ServeFails err => (banner :: os_error_lines err, 1)
  | ServeInterrupted => ([banner; stopped_line], 0)
  end.

(** Two preflight requests that differ in everything but the verb. *)
Definition options_plain : request :=
  {| rq_command := OPTIONS; path := "/"; content_length := None; rfile := "" |}.

Definition options_loaded : request :=
  {| rq_command := OPTIONS; path := "/api/auth/login";
     content_length := Some "7"; rfile := "garbage" |}.

(** A GET that carries a body. *)
Definition get_with_body (p : string) : request :=
  {| rq_command := GET; path := p; content_length := Some "2"; rfile := "{}" |}.

(** A login with an email the demo table does not have. *)
Definition unknown_email_body : string :=
  "{" ++ quoted "email" ++ ": " ++ quoted "nobody@demo.com" ++ ", "
      ++ quoted "password" ++ ": " ++ quoted "password123" ++ "}".

Definition unknown_email_members : dict :=
  [ ("email", JStr "nobody@demo.com"); ("password", JStr "password123") ].

Definition wrong_password_members : dict :=
  [ ("email", JStr "coach@demo.com"); ("password", JStr "letmein") ].

(** The registration of [register_members] with another password and a
    member the handler does not read. *)
Definition register_members_other : dict :=
  [ ("debug", JBool true); ("name", JStr "Ann"); ("email", JStr "ann@example.org");
    ("password", JStr "another one"); ("role", JStr "athlete") ].

(** A login body followed by bytes the Content-Length does not cover. *)
Definition overlong_request : request :=
  {| rq_command := POST; path := "/api/auth/login";
     content_length := Some (str_of_nat (String.length login_body));
     rfile := login_body ++ "trailing bytes" |}.

Definition empty_body_request : request :=
  {| rq_command := POST; path := "/api/training/sessions";
     content_length := Some "0"; rfile := login_body |}.

Definition bad_length_request : request :=
  {| rq_command := POST; path := "/api/training/sessions";
     content_length := Some "ten"; rfile := "{}" |}.

(** An [OSError] as Linux reports a port that is taken. *)
Definition address_in_use_linux : os_error :=
  {| errno := 98; os_error_str := "[Errno 98] Address already in use" |}.

(** ** The base class around the three methods

    [handle_one_request] of the base class reads the request line, and
    then either answers by itself with [send_error] (a request line it
    refuses, a verb the class has no method for), or calls the method of
    the verb: [do_OPTIONS], [do_GET] and [do_POST] above, or the inherited
    [do_HEAD].  The version it leaves in [request_version] is 'HTTP/0.9'
    unless the request line carried a version 1.x that it accepted. *)

Definition start (v : string) : handler :=
  {| request_version := v; headers_buffer := []; wfile := [] |}.

Inductive incoming :=
| Dispatch (rq : request)                  (* do_OPTIONS, do_GET, do_POST *)
| DispatchHEAD (p : string)                (* the inherited do_HEAD *)
| Refuse (code : Z) (message : string).    (* self.send_error(code, message) *)

(** The inherited [do_HEAD]: the head of what [do_GET] sends for the path. *)
Definition super_do_HEAD (e : env) (p : string) : M unit :=
  (let r := static_do_GET e p in
   send_response e (st_code r) (Some (st_message r)) ;;
   fold_right (fun kv k => send_header (fst kv) (snd kv) ;; k) (ret tt) (st_headers r) ;;
   end_headers)%http.

Definition handle_one_request (e : env) (i : incoming) : M unit :=
  match i with
  | Dispatch rq => dispatch e rq
  | DispatchHEAD p => super_do_HEAD e p
  | Refuse code message => send_error e code message
  end.

(** The output stream for a request handled with [request_version] = v. *)
Definition serve (v : string) (e : env) (i : incoming) : list chunk :=
  wfile (snd (handle_one_request e i (start v))).

(** The header lines of a list of fields. *)
Definition header_lines (hs : list (string * string)) : list line :=
  map (fun kv => HeaderLine (fst kv) (snd kv)) hs.

(** What a response looks like on the stream: in HTTP/0.9 mode only its
    body, otherwise a header block and the body. *)
Definition response_chunks (v : string) (r : response) : list chunk :=
  if is_http09 v then map Body (body r)
  else (Head (StatusLine (status r) (reason r) :: header_lines (headers r))
        :: map Body (body r))%list.

(** A header block carries the six fixed fields. *)
Definition block_has_fixed_headers (c : chunk) : Prop :=
  match c with
  | Head ls => incl fixed_headers (header_fields ls)
  | Body _ => True
  end.

(** ** Properties *)

(** *** What the output stream looks like *)

Definition json_out (e : env) (data : json) : list chunk :=
  wfile (snd (send_json_response e data fresh)).

Definition error_out (e : env) (code : Z) (message : string) : list chunk :=
  wfile (snd (send_error e code message fresh)).

(** The response the [except] clauses of [handle_api_post] give. *)
Definition fail_response (e : env) (ex : exn) : response :=
  match ex with
  | JSONDecodeError => error_response e 400 "Invalid JSON"
  | _ => error_response e 500 ("Internal server error: " ++ exc_str e ex)
  end.

(** The response to a POST on a defined endpoint whose handler returned or
    raised. *)
Definition handler_response (e : env) (r : result json) : response :=
  match r with
  | Ok data => json_response e data
  | Raise ex => fail_response e ex
  end.

Lemma responses_json_out e data :
  responses_on (json_out e data) = [json_response e data].
Proof. reflexivity. Qed.

Lemma responses_error_out e code message :
  responses_on (error_out e code message) = [error_response e code message].
Proof.
  unfold error_out, send_error, error_response.
  destruct ((200 <=? code) && negb ((code =? 204) || (code =? 205) || (code =? 304)));
    cbn [andb]; [destruct (negb (String.eqb (error_page e code message) ""))|];
    reflexivity.
Qed.

(** A failed read of the body is answered by the [except] clauses. *)
Lemma api_post_read_fails e rq ex :
  read_json rq = Raise ex ->
  handle_api_post e rq fresh = api_post_except e ex fresh.
Proof.
  unfold read_json, handle_api_post, try_except, bind, lift, ret, rbind.
  destruct (py_int (content_length rq)) as [n|ex0]; [|intros [= ->]; reflexivity].
  destruct (rfile_read n (rfile rq)) as [b|ex3]; [|intros [= ->]; reflexivity].
  destruct (decode_utf8 b) as [text|ex1]; [|intros [= ->]; reflexivity].
  destruct (json_loads text) as [data|ex2]; [discriminate|intros [= ->]; reflexivity].
Qed.

Lemma api_post_read_ok e rq data :
  read_json rq = Ok data ->
  handle_api_post e rq fresh
  = try_except (api_post_route e rq data) (api_post_except e) fresh.
Proof.
  unfold read_json, handle_api_post, try_except, bind, lift, ret, rbind.
  destruct (py_int (content_length rq)) as [n|ex0]; [|discriminate].
  destruct (rfile_read n (rfile rq)) as [b|ex3]; [|discriminate].
  destruct (decode_utf8 b) as [text|ex1]; [|discriminate].
  destruct (json_loads text) as [d|ex2]; [intros [= ->]; reflexivity|discriminate].
Qed.

Lemma responses_except e ex :
  responses_on (wfile (snd (api_post_except e ex fresh))) = [fail_response e ex].
Proof.
  destruct ex; apply responses_error_out.
Qed.

Lemma post_read_fails e rq ex :
  rq_command rq = POST ->
  String.prefix "/api/" (path rq) = true ->
  read_json rq = Raise ex ->
  responses_on (handle e rq) = [fail_response e ex].
Proof.
  intros Hc Hp Hr. unfold handle, dispatch, do_POST. rewrite Hc, Hp.
  rewrite (api_post_read_fails e rq ex Hr). apply responses_except.
Qed.

Ltac enter_post Hc Hpath Hr :=
  unfold handle, dispatch, do_POST; rewrite Hc, Hpath;
  lazymatch goal with
  | |- context [String.prefix ?a ?b] => change (String.prefix a b) with true
  end;
  cbv iota;
  rewrite (api_post_read_ok _ _ _ Hr);
  unfold try_except, api_post_route; rewrite Hpath.

Lemma post_login e rq data :
  rq_command rq = POST ->
  path rq = "/api/auth/login" ->
  read_json rq = Ok data ->
  responses_on (handle e rq) = [handler_response e (handle_login e data)].
Proof.
  intros Hc Hpath Hr. enter_post Hc Hpath Hr.
  unfold bind, lift; cbn [String.eqb Ascii.eqb Bool.eqb].
  destruct (handle_login e data) as [r|ex]; cbn [handler_response].
  - reflexivity.
  - apply responses_except.
Qed.

Lemma post_register e rq data :
  rq_command rq = POST ->
  path rq = "/api/auth/register" ->
  read_json rq = Ok data ->
  responses_on (handle e rq) = [handler_response e (handle_register e data)].
Proof.
  intros Hc Hpath Hr. enter_post Hc Hpath Hr.
  unfold bind, lift; cbn [String.eqb Ascii.eqb Bool.eqb].
  destruct (handle_register e data) as [r|ex]; cbn [handler_response].
  - reflexivity.
  - apply responses_except.
Qed.

Lemma post_training_session e rq data :
  rq_command rq = POST ->
  path rq = "/api/training/sessions" ->
  read_json rq = Ok data ->
  handle e rq = json_out e (session_saved e).
Proof.
  intros Hc Hpath Hr. enter_post Hc Hpath Hr. reflexivity.
Qed.

Lemma post_ai_analysis e rq data :
  rq_command rq = POST ->
  path rq = "/api/ai/analysis" ->
  read_json rq = Ok data ->
  handle e rq = json_out e (analysis_saved e).
Proof.
  intros Hc Hpath Hr. enter_post Hc Hpath Hr. reflexivity.
Qed.

(** *** Login *)

(** C1. For each of the three demo accounts, a POST to /api/auth/login
    with that email and the password "password123" is answered by one 200
    response whose body has success = true, a user whose role (and name) is
    the one of the account's entry in the demo table (athlete, coach and
    admin respectively) and whose id is "user_" followed by the part of
    the email before the at sign, and a token built from the clock. *)
Theorem login_demo_accounts e rq d local :
  In local ["athlete"; "coach"; "admin"] ->
  rq_command rq = POST ->
  path rq = "/api/auth/login" ->
  read_json rq = Ok (JDict d) ->
  dict_lookup "email" d = Some (JStr (local ++ "@demo.com")) ->
  dict_lookup "password" d = Some (JStr "password123") ->
  exists u,
    In (local ++ "@demo.com", u) demo_users /\
    du_role u = local /\
    let result :=
      JDict [ ("success", JBool true);
              ("user", JDict [ ("id", JStr ("user_" ++ local));
                               ("email", JStr (local ++ "@demo.com"));
                               ("name", JStr (du_name u));
                               ("role", JStr (du_role u)) ]);
              ("token", JStr ("demo_token_" ++ now_timestamp e)) ] in
    handle_login e (JDict d) = Ok result /\
    responses_on (handle e rq) = [json_response e result].
Proof.
  intros Hin Hc Hpath Hr Hemail Hpw.
  assert (Hbody : forall em, dict_lookup "email" d = Some (JStr em) ->
             handle_login e (JDict d)
             = handle_login e (JDict [("email", JStr em); ("password", JStr "password123")])).
  { intros em He. unfold handle_login, py_get. rewrite He, Hpw. reflexivity. }
  pose proof (Hbody _ Hemail) as Hl.
  destruct Hin as [<-|[<-|[<-|[]]]];
    (eexists; split; [simpl; eauto 6|]; split; [reflexivity|]; cbv zeta; split;
     [rewrite Hl; reflexivity
     |rewrite (post_login e rq (JDict d) Hc Hpath Hr), Hl; reflexivity]).
Qed.

Lemma login_demo_accounts_witness :
  exists u,
    In ("coach@demo.com", u) demo_users /\
    du_role u = "coach" /\
    let result :=
      JDict [ ("success", JBool true);
              ("user", JDict [ ("id", JStr "user_coach");
                               ("email", JStr "coach@demo.com");
                               ("name", JStr (du_name u));
                               ("role", JStr (du_role u)) ]);
              ("token", JStr ("demo_token_" ++ now_timestamp sample_env)) ] in
    handle_login sample_env (JDict [("email", JStr "coach@demo.com"); ("password", JStr "password123")])
    = Ok result /\
    responses_on (handle sample_env (post "/api/auth/login" login_body))
    = [json_response sample_env result].
Proof.
  apply (login_demo_accounts sample_env (post "/api/auth/login" login_body)
           [("email", JStr "coach@demo.com"); ("password", JStr "password123")] "coach").
  - simpl. auto.
  - reflexivity.
  - reflexivity.
  - vm_compute. reflexivity.
  - reflexivity.
  - reflexivity.
Defined.

Lemma handle_login_fields e d :
  handle_login e (JDict d)
  = handle_login e (JDict [ ("email", field d "email" (JStr ""));
                            ("password", field d "password" (JStr "")) ]).
Proof.
  unfold handle_login, py_get, field.
  destruct (dict_lookup "email" d), (dict_lookup "password" d); reflexivity.
Qed.

Lemma str_eq_false s v : v <> JStr s -> str_eq s v = false.
Proof.
  destruct v; try reflexivity. simpl. intros H.
  destruct (String.eqb_spec s s0); [subst; congruence|reflexivity].
Qed.

(** C2, as the code has it.  For every login request (a JSON object) whose
    email value is not an array or an object, if the email is not a key of
    the demo table, or is one and the password differs from the stored
    one, the handler returns success = false with the error "Invalid
    credentials", and the response has status 200. *)
Theorem login_failure e rq d :
  rq_command rq = POST ->
  path rq = "/api/auth/login" ->
  read_json rq = Ok (JDict d) ->
  hashable (field d "email" (JStr "")) = true ->
  (forall k u, In (k, u) demo_users -> field d "email" (JStr "") <> JStr k) \/
  (exists k u, In (k, u) demo_users /\ field d "email" (JStr "") = JStr k /\
               field d "password" (JStr "") <> JStr (du_password u)) ->
  handle_login e (JDict d) = Ok invalid_credentials /\
  responses_on (handle e rq) = [json_response e invalid_credentials].
Proof.
  intros Hc Hpath Hr Hhash Hbad.
  assert (Hl : handle_login e (JDict d) = Ok invalid_credentials).
  { rewrite handle_login_fields.
    destruct (field d "email" (JStr "")) as [| | | |s| |] eqn:Hem;
      try reflexivity; try discriminate.
    set (pw := field d "password" (JStr "")) in *.
    destruct (String.eqb s "athlete@demo.com") eqn:E1;
      [apply String.eqb_eq in E1; subst s
      |destruct (String.eqb s "coach@demo.com") eqn:E2;
       [apply String.eqb_eq in E2; subst s
       |destruct (String.eqb s "admin@demo.com") eqn:E3;
        [apply String.eqb_eq in E3; subst s|]]].
    4: { unfold handle_login. cbn. rewrite E1, E2, E3. reflexivity. }
    all: destruct Hbad as [Hno|(k & u & Hin & [= <-] & Hpw)];
      [ exfalso; eapply Hno; [|reflexivity]; simpl; eauto 6
      | simpl in Hin;
        destruct Hin as [[= <-]|[[= <-]|[[= <-]|[]]]];
        cbn [du_password] in Hpw;
        unfold handle_login; cbn -[str_eq];
        rewrite (str_eq_false _ _ Hpw); reflexivity ]. }
  split; [exact Hl|].
  rewrite (post_login e rq (JDict d) Hc Hpath Hr), Hl. reflexivity.
Qed.

Lemma login_failure_witness :
  handle_login sample_env (JDict [ ("email", JStr "coach@demo.com"); ("password", JStr "letmein") ])
  = Ok invalid_credentials /\
  responses_on (handle sample_env (post "/api/auth/login" wrong_password_body))
  = [json_response sample_env invalid_credentials].
Proof.
  apply (login_failure sample_env (post "/api/auth/login" wrong_password_body)
           [ ("email", JStr "coach@demo.com"); ("password", JStr "letmein") ]).
  - reflexivity.
  - reflexivity.
  - vm_compute. reflexivity.
  - reflexivity.
  - right. exists "coach@demo.com", {| du_password := "password123"; du_role := "coach"; du_name := "Demo Coach" |}.
    split; [simpl; auto|]. split; [reflexivity|discriminate].
Defined.

(** C2 as stated fails: an email that is a JSON array is not a key of the
    demo table, yet hashing it raises and the request is answered with
    status 500 instead of the "Invalid credentials" body. *)
Lemma login_failure_counterexample :
  read_json (post "/api/auth/login" list_email_body) = Ok (JDict list_email_members) /\
  (forall k u, In (k, u) demo_users ->
               field list_email_members "email" (JStr "") <> JStr k) /\
  handle_login sample_env (JDict list_email_members)
  = Raise (TypeError "unhashable type: 'list'") /\
  responses_on (handle sample_env (post "/api/auth/login" list_email_body))
  = [error_response sample_env 500 "Internal server error: unhashable type: 'list'"] /\
  responses_on (handle sample_env (post "/api/auth/login" list_email_body))
  <> [json_response sample_env invalid_credentials].
Proof.
  split; [vm_compute; reflexivity|].
  split; [intros k u _; discriminate|].
  split; [reflexivity|].
  split; [vm_compute; reflexivity|vm_compute; discriminate].
Qed.

(** *** Reading the body *)

Lemma py_int_raises x ex : py_int x = Raise ex -> ex <> JSONDecodeError.
Proof.
  unfold py_int. destruct x as [s|]; [destruct (int_literal _)|];
    intros [= <-]; discriminate.
Qed.

Lemma decode_utf8_raises b ex : decode_utf8 b = Raise ex -> ex = UnicodeDecodeError.
Proof.
  unfold decode_utf8. destruct (utf8_valid _); [discriminate|intros [= <-]; reflexivity].
Qed.

Lemma rfile_read_raises n b ex : rfile_read n b = Raise ex -> ex <> JSONDecodeError.
Proof.
  unfold rfile_read. destruct (n <? -1); [intros [= <-]; discriminate|].
  destruct (n =? -1); discriminate.
Qed.

Lemma fail_response_other e ex :
  ex <> JSONDecodeError ->
  fail_response e ex = error_response e 500 ("Internal server error: " ++ exc_str e ex).
Proof. destruct ex; [congruence|reflexivity..]. Qed.

(** C3, as the code has it.  For every POST under /api/ whose body cannot
    be read as JSON there is exactly one response, decided by the exception
    alone.  It is status 400 with reason "Invalid JSON" exactly when the
    exception is the JSON decoder's JSONDecodeError, which only the decoder
    raises, after the Content-Length was read as an integer, the bytes were
    read and were valid UTF-8.  For every other exception it is status 500
    with reason "Internal server error: " and the text of the exception:
    the Content-Length header is absent or not an integer, the read is
    refused, the bytes are not valid UTF-8, or the decoder fails in another
    way. *)
Theorem body_parsing_failure e rq ex :
  rq_command rq = POST ->
  String.prefix "/api/" (path rq) = true ->
  read_json rq = Raise ex ->
  (ex = JSONDecodeError /\
   (exists n post_data text,
       py_int (content_length rq) = Ok n /\
       rfile_read n (rfile rq) = Ok post_data /\
       decode_utf8 post_data = Ok text /\
       json_loads text = Raise JSONDecodeError) /\
   responses_on (handle e rq) = [error_response e 400 "Invalid JSON"])
  \/
  (ex <> JSONDecodeError /\
   (py_int (content_length rq) = Raise ex \/
    (exists n, py_int (content_length rq) = Ok n /\
               rfile_read n (rfile rq) = Raise ex) \/
    (exists n post_data,
        py_int (content_length rq) = Ok n /\
        rfile_read n (rfile rq) = Ok post_data /\
        decode_utf8 post_data = Raise ex) \/
    (exists n post_data text,
        py_int (content_length rq) = Ok n /\
        rfile_read n (rfile rq) = Ok post_data /\
        decode_utf8 post_data = Ok text /\
        json_loads text = Raise ex)) /\
   responses_on (handle e rq)
   = [error_response e 500 ("Internal server error: " ++ exc_str e ex)]).
Proof.
  intros Hc Hp Hr.
  rewrite (post_read_fails e rq ex Hc Hp Hr).
  assert (Hother : ex <> JSONDecodeError ->
                   [fail_response e ex]
                   = [error_response e 500 ("Internal server error: " ++ exc_str e ex)]).
  { intros Hne. rewrite (fail_response_other e ex Hne). reflexivity. }
  unfold read_json, rbind in Hr.
  destruct (py_int (content_length rq)) as [n|ex0] eqn:Hint.
  - destruct (rfile_read n (rfile rq)) as [b|ex3] eqn:Hread.
    + destruct (decode_utf8 b) as [text|ex1] eqn:Hdec.
      * destruct ex;
          [left; split; [reflexivity|split; [exists n, b, text; auto|reflexivity]]
          |right; (split; [discriminate|split; [|apply Hother; discriminate]]);
           right; right; right; exists n, b, text; auto..].
      * right. injection Hr as <-.
        assert (Hne : ex1 <> JSONDecodeError)
          by (rewrite (decode_utf8_raises _ _ Hdec); discriminate).
        split; [exact Hne|]. split; [|exact (Hother Hne)].
        right; right; left. exists n, b. auto.
    + right. injection Hr as <-.
      assert (Hne : ex3 <> JSONDecodeError) by (eapply rfile_read_raises; eassumption).
      split; [exact Hne|]. split; [|exact (Hother Hne)].
      right; left. exists n. auto.
  - right. injection Hr as <-.
    assert (Hne : ex0 <> JSONDecodeError) by (eapply py_int_raises; eassumption).
    split; [exact Hne|]. split; [|exact (Hother Hne)]. left. reflexivity.
Qed.

Lemma body_parsing_failure_witness :
  let rq := post "/api/auth/login" "{" in
  let ex := JSONDecodeError in
  (ex = JSONDecodeError /\
   (exists n post_data text,
       py_int (content_length rq) = Ok n /\
       rfile_read n (rfile rq) = Ok post_data /\
       decode_utf8 post_data = Ok text /\
       json_loads text = Raise JSONDecodeError) /\
   responses_on (handle sample_env rq) = [error_response sample_env 400 "Invalid JSON"])
  \/
  (ex <> JSONDecodeError /\
   (py_int (content_length rq) = Raise ex \/
    (exists n, py_int (content_length rq) = Ok n /\
               rfile_read n (rfile rq) = Raise ex) \/
    (exists n post_data,
        py_int (content_length rq) = Ok n /\
        rfile_read n (rfile rq) = Ok post_data /\
        decode_utf8 post_data = Raise ex) \/
    (exists n post_data text,
        py_int (content_length rq) = Ok n /\
        rfile_read n (rfile rq) = Ok post_data /\
        decode_utf8 post_data = Ok text /\
        json_loads text = Raise ex)) /\
   responses_on (handle sample_env rq)
   = [error_response sample_env 500
        ("Internal server error: " ++ exc_str sample_env ex)]).
Proof.
  apply (body_parsing_failure sample_env (post "/api/auth/login" "{") JSONDecodeError).
  - reflexivity.
  - reflexivity.
  - vm_compute. reflexivity.
Defined.

(** C3 as stated fails: a body that is not valid UTF-8 is a body-parsing
    failure, and the server answers it with status 500, not 400. *)
Lemma body_parsing_failure_counterexample :
  rq_command not_utf8_request = POST /\
  String.prefix "/api/" (path not_utf8_request) = true /\
  py_int (content_length not_utf8_request) = Ok 1 /\
  rfile_read 1 (rfile not_utf8_request) = Ok (String (ascii_of_N 255) "") /\
  decode_utf8 (String (ascii_of_N 255) "") = Raise UnicodeDecodeError /\
  read_json not_utf8_request = Raise UnicodeDecodeError /\
  map status (responses_on (handle sample_env not_utf8_request)) = [500] /\
  map reason (responses_on (handle sample_env not_utf8_request))
  = ["Internal server error: 'utf-8' codec can't decode byte 0xff in position 0: invalid start byte"].
Proof.
  repeat split; vm_compute; reflexivity.
Qed.

(** *** Registration *)

(** C4, as the code has it.  For every register request (a JSON object),
    with each of name, email and password read as the empty string when
    missing and role as "athlete" when missing: if any of name, email or
    password is falsy (missing, the empty string, null, false, a zero
    number, an empty array or object) the handler returns success = false
    with the error "Missing required fields"; otherwise it returns success
    = true with a user whose id is "user_" followed by the clock value and
    whose name, email and role are the values read.  The response has
    status 200. *)
Theorem register_result e rq d :
  rq_command rq = POST ->
  path rq = "/api/auth/register" ->
  read_json rq = Ok (JDict d) ->
  let name := field d "name" (JStr "") in
  let email := field d "email" (JStr "") in
  let password := field d "password" (JStr "") in
  let role := field d "role" (JStr "athlete") in
  let result :=
    if truthy name && truthy email && truthy password then
      JDict [ ("success", JBool true);
              ("user", JDict [ ("id", JStr ("user_" ++ now_timestamp e));
                               ("name", name); ("email", email); ("role", role) ]) ]
    else missing_fields in
  handle_register e (JDict d) = Ok result /\
  responses_on (handle e rq) = [json_response e result] /\
  (forall k, In k ["name"; "email"; "password"] ->
             dict_lookup k d = None \/ dict_lookup k d = Some (JStr "") ->
             result = missing_fields) /\
  (dict_lookup "role" d = None -> role = JStr "athlete") /\
  (forall v, dict_lookup "role" d = Some v -> role = v).
Proof.
  intros Hc Hpath Hr name email password role result.
  assert (Hreg : handle_register e (JDict d) = Ok result).
  { subst name email password role result.
    unfold handle_register, py_get, field, rbind.
    destruct (dict_lookup "name" d) as [name|], (dict_lookup "email" d) as [email|],
             (dict_lookup "password" d) as [password|], (dict_lookup "role" d) as [role|];
      match goal with
      | |- (if negb ?a || negb ?b || negb ?c then _ else _) = _ =>
          destruct a, b, c; reflexivity
      end. }
  split; [exact Hreg|].
  split; [rewrite (post_register e rq (JDict d) Hc Hpath Hr), Hreg; reflexivity|].
  split; [|split].
  - intros k Hk Hmiss.
    assert (Hf : truthy (field d k (JStr "")) = false).
    { unfold field. destruct Hmiss as [-> | ->]; reflexivity. }
    unfold result.
    destruct Hk as [<-|[<-|[<-|[]]]];
      fold name in Hf; fold email in Hf; fold password in Hf; rewrite Hf;
      rewrite ?andb_false_r; reflexivity.
  - intros Hn. unfold role, field. rewrite Hn. reflexivity.
  - intros v Hv. unfold role, field. rewrite Hv. reflexivity.
Qed.

Lemma register_result_witness :
  let result :=
    JDict [ ("success", JBool true);
            ("user", JDict [ ("id", JStr ("user_" ++ now_timestamp sample_env));
                             ("name", JStr "Ann"); ("email", JStr "ann@example.org");
                             ("role", JStr "athlete") ]) ] in
  handle_register sample_env (JDict register_members) = Ok result /\
  responses_on (handle sample_env (post "/api/auth/register" register_body))
  = [json_response sample_env result].
Proof.
  pose proof (register_result sample_env (post "/api/auth/register" register_body)
                register_members eq_refl eq_refl) as H.
  cbv zeta in H.
  destruct H as (H1 & H2 & _).
  - vm_compute. reflexivity.
  - split; [exact H1|exact H2].
Defined.

(** C4 as stated fails twice: a request that carries the role "athlete"
    gets the role "athlete" although the field is present; and a request
    whose name is the number 0 has all three fields present and none is the
    empty string, yet it is answered "Missing required fields". *)
Lemma register_result_counterexample :
  (read_json (post "/api/auth/register" register_body) = Ok (JDict register_members) /\
   dict_lookup "role" register_members <> None /\
   handle_register sample_env (JDict register_members)
   = Ok (JDict [ ("success", JBool true);
                 ("user", JDict [ ("id", JStr "user_1730000000.123456");
                                  ("name", JStr "Ann"); ("email", JStr "ann@example.org");
                                  ("role", JStr "athlete") ]) ])) /\
  (read_json (post "/api/auth/register" zero_name_body) = Ok (JDict zero_name_members) /\
   (forall k, In k ["name"; "email"; "password"] ->
              dict_lookup k zero_name_members <> None /\
              dict_lookup k zero_name_members <> Some (JStr "")) /\
   handle_register sample_env (JDict zero_name_members) = Ok missing_fields /\
   responses_on (handle sample_env (post "/api/auth/register" zero_name_body))
   = [json_response sample_env missing_fields]).
Proof.
  split; [split; [vm_compute; reflexivity|split; [discriminate|reflexivity]]|].
  split; [vm_compute; reflexivity|].
  split; [|split; [reflexivity|vm_compute; reflexivity]].
  intros k [<-|[<-|[<-|[]]]]; split; discriminate.
Qed.

(** *** Routing *)

Lemma bind_returns (m : M unit) (k : unit -> M unit) h :
  (forall h', fst (m h') = Ok tt) ->
  (forall h', fst (k tt h') = Ok tt) ->
  fst (bind m k h) = Ok tt.
Proof.
  intros Hm Hk. unfold bind. specialize (Hm h).
  destruct (m h) as [[[]|ex] h']; [apply Hk|discriminate].
Qed.

Lemma send_response_only_returns code message h :
  fst (send_response_only code message h) = Ok tt.
Proof. unfold send_response_only. destruct (is_http09 _); reflexivity. Qed.

Lemma send_header_returns k v h : fst (send_header k v h) = Ok tt.
Proof. unfold send_header. destruct (is_http09 _); reflexivity. Qed.

Lemma base_end_headers_returns h : fst (base_end_headers h) = Ok tt.
Proof. unfold base_end_headers. destruct (is_http09 _); reflexivity. Qed.

Lemma end_headers_returns h : fst (end_headers h) = Ok tt.
Proof.
  unfold end_headers.
  repeat (apply bind_returns; [intros; apply send_header_returns|intros]).
  apply base_end_headers_returns.
Qed.

Lemma send_response_returns e code message h :
  fst (send_response e code message h) = Ok tt.
Proof.
  unfold send_response.
  apply bind_returns; [intros; apply send_response_only_returns|intros].
  apply bind_returns; intros; apply send_header_returns.
Qed.

Lemma send_error_returns e code message h :
  fst (send_error e code message h) = Ok tt.
Proof.
  unfold send_error.
  apply bind_returns; [intros; apply send_response_returns|intros].
  apply bind_returns; [intros; apply send_header_returns|intros].
  apply bind_returns;
    [intros; destruct ((200 <=? code) && _);
     [apply bind_returns; intros; apply send_header_returns|reflexivity]
    |intros].
  apply bind_returns; [intros; apply end_headers_returns|intros].
  destruct (_ && _); reflexivity.
Qed.

Lemma get_api_unmatched e rq :
  rq_command rq = GET ->
  String.prefix "/api/" (path rq) = true ->
  path rq <> "/api/health" ->
  path rq <> "/api/config" ->
  handle e rq = error_out e 404 "API endpoint not found".
Proof.
  intros Hc Hp N1 N2.
  unfold handle, dispatch, do_GET, handle_api_get, try_except. rewrite Hc, Hp.
  apply String.eqb_neq in N1, N2. rewrite N1, N2.
  pose proof (send_error_returns e 404 "API endpoint not found" fresh) as Hs.
  unfold error_out.
  destruct (send_error e 404 "API endpoint not found" fresh) as [[[]|ex] h'];
    [reflexivity|discriminate].
Qed.

Lemma post_api_unmatched e rq data :
  rq_command rq = POST ->
  String.prefix "/api/" (path rq) = true ->
  path rq <> "/api/auth/login" ->
  path rq <> "/api/auth/register" ->
  path rq <> "/api/training/sessions" ->
  path rq <> "/api/ai/analysis" ->
  read_json rq = Ok data ->
  handle e rq = error_out e 404 "API endpoint not found".
Proof.
  intros Hc Hp N1 N2 N3 N4 Hr.
  unfold handle, dispatch, do_POST. rewrite Hc, Hp.
  rewrite (api_post_read_ok e rq data Hr).
  unfold try_except, api_post_route, bind.
  apply String.eqb_neq in N1, N2, N3, N4. rewrite N1, N2, N3, N4.
  pose proof (send_error_returns e 404 "API endpoint not found" fresh) as Hs.
  unfold error_out.
  destruct (send_error e 404 "API endpoint not found" fresh) as [[[]|ex] h'];
    [reflexivity|discriminate].
Qed.

Lemma post_elsewhere e rq :
  rq_command rq = POST ->
  String.prefix "/api/" (path rq) = false ->
  handle e rq = error_out e 404 "Not Found".
Proof.
  intros Hc Hp. unfold handle, dispatch, do_POST. rewrite Hc, Hp. reflexivity.
Qed.

(** C5, as the code has it.  There is exactly one response, with status
    404, in three cases: a GET under /api/ whose path is neither
    /api/health nor /api/config, with reason "API endpoint not found"; a
    POST under /api/ whose body was read and parsed as JSON and whose path
    is none of the four POST endpoints, with reason "API endpoint not
    found"; a POST whose path is not under /api/, with reason "Not
    Found". *)
Theorem unmatched_routes e rq message :
  (rq_command rq = GET /\
   String.prefix "/api/" (path rq) = true /\
   path rq <> "/api/health" /\ path rq <> "/api/config" /\
   message = "API endpoint not found")
  \/
  (rq_command rq = POST /\
   String.prefix "/api/" (path rq) = true /\
   ~ In (path rq) ["/api/auth/login"; "/api/auth/register";
                   "/api/training/sessions"; "/api/ai/analysis"] /\
   (exists data, read_json rq = Ok data) /\
   message = "API endpoint not found")
  \/
  (rq_command rq = POST /\
   String.prefix "/api/" (path rq) = false /\
   message = "Not Found") ->
  responses_on (handle e rq) = [error_response e 404 message].
Proof.
  intros [(Hc & Hp & N1 & N2 & ->)|[(Hc & Hp & Hn & (data & Hr) & ->)|(Hc & Hp & ->)]].
  - rewrite (get_api_unmatched e rq Hc Hp N1 N2). apply responses_error_out.
  - rewrite (post_api_unmatched e rq data Hc Hp); try assumption;
      [apply responses_error_out|..]; intros Heq; apply Hn; rewrite Heq; simpl; auto.
  - rewrite (post_elsewhere e rq Hc Hp). apply responses_error_out.
Qed.

Lemma unmatched_routes_witness :
  responses_on (handle sample_env (get "/api/users"))
  = [error_response sample_env 404 "API endpoint not found"] /\
  responses_on (handle sample_env (post "/api/users" "{}"))
  = [error_response sample_env 404 "API endpoint not found"] /\
  responses_on (handle sample_env (post "/login" "{}"))
  = [error_response sample_env 404 "Not Found"].
Proof.
  split; [|split].
  - apply (unmatched_routes sample_env (get "/api/users")). left.
    repeat split; try reflexivity; discriminate.
  - apply (unmatched_routes sample_env (post "/api/users" "{}")). right. left.
    split; [reflexivity|]. split; [reflexivity|]. split.
    + simpl. intros [H|[H|[H|[H|[]]]]]; discriminate.
    + split; [exists (JDict []); vm_compute; reflexivity|reflexivity].
  - apply (unmatched_routes sample_env (post "/login" "{}")). right. right.
    repeat split; reflexivity.
Defined.

(** C5 as stated fails: the body of a POST is read before the path is
    looked at, so a POST to an undefined path under /api/ with a body that
    is not JSON is answered 400 "Invalid JSON"; and a preflight request to
    such a path is answered 200. *)
Lemma unmatched_routes_counterexample :
  String.prefix "/api/" "/api/users" = true /\
  ~ In "/api/users" ["/api/health"; "/api/config"; "/api/auth/login"; "/api/auth/register";
                     "/api/training/sessions"; "/api/ai/analysis"] /\
  responses_on (handle sample_env (post "/api/users" "{"))
  = [error_response sample_env 400 "Invalid JSON"] /\
  map status (responses_on
                (handle sample_env
                   {| rq_command := OPTIONS; path := "/api/users";
                      content_length := None; rfile := "" |})) = [200].
Proof.
  split; [reflexivity|]. split.
  - simpl. intros [H|[H|[H|[H|[H|[H|[]]]]]]]; discriminate.
  - split; vm_compute; reflexivity.
Qed.

(** *** Headers *)

Lemma send_headers_run hs h :
  is_http09 (request_version h) = false ->
  fold_right (fun kv k => bind (send_header (fst kv) (snd kv)) (fun _ => k)) (ret tt) hs h
  = (Ok tt, {| request_version := request_version h;
               headers_buffer :=
                 (headers_buffer h ++ map (fun kv => HeaderLine (fst kv) (snd kv)) hs)%list;
               wfile := wfile h |}).
Proof.
  revert h. induction hs as [|kv hs IH]; intros h Hv.
  - destruct h. cbn. rewrite app_nil_r. reflexivity.
  - cbn [fold_right map]. unfold bind at 1. unfold send_header at 1. rewrite Hv.
    rewrite IH by exact Hv. cbn [request_version headers_buffer wfile].
    rewrite <- app_assoc. reflexivity.
Qed.

Lemma send_response_run e code message h :
  is_http09 (request_version h) = false ->
  send_response e code message h
  = (Ok tt, {| request_version := request_version h;
               headers_buffer :=
                 (headers_buffer h
                  ++ [ StatusLine code (match message with
                                        | Some m => m
                                        | None => responses code
                                        end);
                       HeaderLine "Server" (version_string e);
                       HeaderLine "Date" (date_time_string e) ])%list;
               wfile := wfile h |}).
Proof.
  intros Hv. unfold send_response, bind, send_response_only, send_header.
  rewrite Hv. cbn [request_version headers_buffer wfile]. rewrite Hv.
  cbn [request_version headers_buffer wfile]. rewrite Hv.
  cbn [request_version headers_buffer wfile]. rewrite <- !app_assoc. reflexivity.
Qed.

Lemma header_fields_app ls1 ls2 :
  header_fields (ls1 ++ ls2) = (header_fields ls1 ++ header_fields ls2)%list.
Proof.
  induction ls1 as [|[c m|k v] ls1 IH]; cbn; [reflexivity|exact IH|rewrite IH; reflexivity].
Qed.

Lemma header_fields_map hs :
  header_fields (map (fun kv => HeaderLine (fst kv) (snd kv)) hs) = hs.
Proof.
  induction hs as [|[k v] hs IH]; cbn; [reflexivity|rewrite IH; reflexivity].
Qed.

Lemma fixed_json e data : has_fixed_headers (json_response e data).
Proof.
  unfold has_fixed_headers. cbn [headers json_response].
  apply incl_appr, incl_appr, incl_refl.
Qed.

Lemma fixed_error e code message : has_fixed_headers (error_response e code message).
Proof.
  unfold has_fixed_headers. cbn [headers error_response].
  apply incl_appr, incl_appr, incl_appr, incl_refl.
Qed.

Lemma fixed_static e p : has_fixed_headers (static_response e p).
Proof.
  unfold has_fixed_headers. cbn [headers static_response].
  apply incl_appr, incl_appr, incl_refl.
Qed.

(** *** Configuration *)

(** C7. Every GET of /api/config is answered by one 200 response whose
    body is the fixed constant: appName "AthleteAI", version "1.0.0" and
    the four feature flags aiTesting, faceRecognition, offlineMode and pwa,
    all true.  The body depends neither on the environment nor on anything
    else in the request. *)
Theorem config_is_constant e rq :
  rq_command rq = GET ->
  path rq = "/api/config" ->
  responses_on (handle e rq)
  = [json_response e
       (JDict [ ("appName", JStr "AthleteAI");
                ("version", JStr "1.0.0");
                ("features", JDict [ ("aiTesting", JBool true);
                                     ("faceRecognition", JBool true);
                                     ("offlineMode", JBool true);
                                     ("pwa", JBool true) ]) ])].
Proof.
  intros Hc Hpath.
  unfold handle, dispatch, do_GET, handle_api_get, try_except.
  rewrite Hc, Hpath. reflexivity.
Qed.

Lemma config_is_constant_witness :
  responses_on (handle sample_env (get "/api/config"))
  = [json_response sample_env
       (JDict [ ("appName", JStr "AthleteAI");
                ("version", JStr "1.0.0");
                ("features", JDict [ ("aiTesting", JBool true);
                                     ("faceRecognition", JBool true);
                                     ("offlineMode", JBool true);
                                     ("pwa", JBool true) ]) ])].
Proof.
  apply (config_is_constant sample_env (get "/api/config")); reflexivity.
Defined.

(** *** Training sessions and AI analyses *)

(** C8. The training-session and AI-analysis handlers do not depend on
    the request body: two POSTs to the same of the two endpoints, handled
    at the same clock value, with any two JSON-object bodies, produce the
    same output, which is one 200 response with success = true, the
    identifier "session_" (or "analysis_") followed by the clock value,
    and the fixed message. *)
Theorem session_and_analysis_ignore_body e rq1 rq2 d1 d2 :
  rq_command rq1 = POST ->
  rq_command rq2 = POST ->
  path rq1 = "/api/training/sessions" \/ path rq1 = "/api/ai/analysis" ->
  path rq2 = path rq1 ->
  read_json rq1 = Ok (JDict d1) ->
  read_json rq2 = Ok (JDict d2) ->
  handle_training_session e (JDict d1) = handle_training_session e (JDict d2) /\
  handle_ai_analysis e (JDict d1) = handle_ai_analysis e (JDict d2) /\
  handle e rq1 = handle e rq2 /\
  responses_on (handle e rq1)
  = [json_response e
       (if String.eqb (path rq1) "/api/training/sessions" then
          JDict [ ("success", JBool true);
                  ("sessionId", JStr ("session_" ++ now_timestamp e));
                  ("message", JStr "Training session saved successfully") ]
        else
          JDict [ ("success", JBool true);
                  ("analysisId", JStr ("analysis_" ++ now_timestamp e));
                  ("message", JStr "AI analysis saved successfully") ])].
Proof.
  intros Hc1 Hc2 Hpath H21 Hr1 Hr2.
  split; [reflexivity|]. split; [reflexivity|].
  destruct Hpath as [Hp|Hp]; rewrite Hp in H21 |- *.
  - rewrite (post_training_session e rq1 _ Hc1 Hp Hr1),
            (post_training_session e rq2 _ Hc2 H21 Hr2).
    split; reflexivity.
  - rewrite (post_ai_analysis e rq1 _ Hc1 Hp Hr1),
            (post_ai_analysis e rq2 _ Hc2 H21 Hr2).
    split; reflexivity.
Qed.

Lemma session_and_analysis_ignore_body_witness :
  handle sample_env (post "/api/training/sessions" "{}")
  = handle sample_env (post "/api/training/sessions" register_body) /\
  responses_on (handle sample_env (post "/api/training/sessions" "{}"))
  = [json_response sample_env
       (JDict [ ("success", JBool true);
                ("sessionId", JStr "session_1730000000.123456");
                ("message", JStr "Training session saved successfully") ])].
Proof.
  pose proof (session_and_analysis_ignore_body sample_env
                (post "/api/training/sessions" "{}")
                (post "/api/training/sessions" register_body)
                [] register_members eq_refl eq_refl (or_introl eq_refl) eq_refl) as H.
  destruct H as (_ & _ & H1 & H2).
  - vm_compute. reflexivity.
  - vm_compute. reflexivity.
  - split; [exact H1|exact H2].
Defined.

(** *** Bodies that are JSON but not objects *)

(** C9, as the code has it.  For a POST whose body is valid JSON but not
    an object: on /api/auth/login and /api/auth/register the handler's
    call of get raises and the answer is one response with status 500; on
    /api/training/sessions and /api/ai/analysis the body is not looked at
    and the answer is the usual 200 response. *)
Theorem non_object_body e rq data :
  rq_command rq = POST ->
  read_json rq = Ok data ->
  (forall d, data <> JDict d) ->
  (path rq = "/api/auth/login" \/ path rq = "/api/auth/register" ->
   responses_on (handle e rq)
   = [error_response e 500
        ("Internal server error: "
         ++ exc_str e (AttributeError ("'" ++ type_name data
                                        ++ "' object has no attribute 'get'")))]) /\
  (path rq = "/api/training/sessions" ->
   responses_on (handle e rq) = [json_response e (session_saved e)]) /\
  (path rq = "/api/ai/analysis" ->
   responses_on (handle e rq) = [json_response e (analysis_saved e)]).
Proof.
  intros Hc Hr Hno.
  split; [|split].
  - assert (Hget : forall s v, py_get data s v
                   = Raise (AttributeError ("'" ++ type_name data
                                             ++ "' object has no attribute 'get'"))).
    { intros s v. destruct data; try reflexivity. exfalso. eapply Hno. reflexivity. }
    intros [Hp|Hp].
    + rewrite (post_login e rq data Hc Hp Hr).
      unfold handle_login. rewrite Hget. reflexivity.
    + rewrite (post_register e rq data Hc Hp Hr).
      unfold handle_register. rewrite Hget. reflexivity.
  - intros Hp. rewrite (post_training_session e rq data Hc Hp Hr). reflexivity.
  - intros Hp. rewrite (post_ai_analysis e rq data Hc Hp Hr). reflexivity.
Qed.

Lemma non_object_body_witness :
  responses_on (handle sample_env (post "/api/auth/login" "[1, 2]"))
  = [error_response sample_env 500
       "Internal server error: 'list' object has no attribute 'get'"] /\
  responses_on (handle sample_env (post "/api/ai/analysis" "[1, 2]"))
  = [json_response sample_env (analysis_saved sample_env)].
Proof.
  split.
  - apply (non_object_body sample_env (post "/api/auth/login" "[1, 2]")
             (JList [JInt 1; JInt 2])).
    + reflexivity.
    + vm_compute. reflexivity.
    + discriminate.
    + left. reflexivity.
  - apply (non_object_body sample_env (post "/api/ai/analysis" "[1, 2]")
             (JList [JInt 1; JInt 2])).
    + reflexivity.
    + vm_compute. reflexivity.
    + discriminate.
    + reflexivity.
Defined.

(** C9 as stated fails: a POST to /api/training/sessions whose body is a
    JSON array is answered with status 200, not 500. *)
Lemma non_object_body_counterexample :
  read_json (post "/api/training/sessions" "[]") = Ok (JList []) /\
  (forall d, JList [] <> JDict d) /\
  responses_on (handle sample_env (post "/api/training/sessions" "[]"))
  = [json_response sample_env (session_saved sample_env)] /\
  map status (responses_on (handle sample_env (post "/api/training/sessions" "[]")))
  = [200].
Proof.
  split; [vm_compute; reflexivity|].
  split; [discriminate|].
  split; vm_compute; reflexivity.
Qed.

(** *** Requests without Content-Length *)

(** C10. For every POST under /api/ that has no Content-Length header,
    the conversion of the absent header to an integer raises before
    anything is read, and the server sends exactly one response, with
    status 500 and a reason that starts with "Internal server error: ". *)
Theorem missing_content_length e rq :
  rq_command rq = POST ->
  String.prefix "/api/" (path rq) = true ->
  content_length rq = None ->
  exists ex,
    py_int (content_length rq) = Raise ex /\
    read_json rq = Raise ex /\
    ex <> JSONDecodeError /\
    responses_on (handle e rq)
    = [error_response e 500 ("Internal server error: " ++ exc_str e ex)].
Proof.
  intros Hc Hp Hlen.
  exists (TypeError "int() argument must be a string, a bytes-like object or a real number, not 'NoneType'").
  assert (Hr : read_json rq = Raise (TypeError "int() argument must be a string, a bytes-like object or a real number, not 'NoneType'")).
  { unfold read_json. rewrite Hlen. reflexivity. }
  split; [rewrite Hlen; reflexivity|].
  split; [exact Hr|]. split; [discriminate|].
  apply (post_read_fails e rq _ Hc Hp Hr).
Qed.

Lemma missing_content_length_witness :
  exists ex,
    py_int (content_length no_length_request) = Raise ex /\
    read_json no_length_request = Raise ex /\
    ex <> JSONDecodeError /\
    responses_on (handle sample_env no_length_request)
    = [error_response sample_env 500 ("Internal server error: " ++ exc_str sample_env ex)].
Proof.
  apply (missing_content_length sample_env no_length_request); reflexivity.
Defined.

(** ** Further properties of the router *)

Lemma try_except_ok {A} (m : M A) (except : exn -> M A) h :
  (exists a, fst (m h) = Ok a) -> try_except m except h = m h.
Proof.
  intros [a Ha]. unfold try_except. destruct (m h) as [[a'|ex] h']; [reflexivity|discriminate].
Qed.

Lemma send_json_response_returns e data h :
  fst (send_json_response e data h) = Ok tt.
Proof.
  unfold send_json_response.
  apply bind_returns; [intros; apply send_response_returns|intros].
  apply bind_returns; [intros; apply send_header_returns|intros].
  apply bind_returns; [intros; apply end_headers_returns|intros].
  reflexivity.
Qed.

(** The router sends the reply it decides on, and nothing else. *)
Lemma dispatch_plan e rq :
  dispatch e rq fresh = perform e rq (plan e rq) fresh.
Proof.
  unfold dispatch, plan.
  destruct (rq_command rq); [reflexivity| |].
  - unfold do_GET, handle_api_get.
    destruct (String.prefix "/api/" (path rq)); [|reflexivity].
    destruct (String.eqb (path rq) "/api/health"); [reflexivity|].
    destruct (String.eqb (path rq) "/api/config"); [reflexivity|].
    cbn [perform]. apply try_except_ok. exists tt. apply send_error_returns.
  - unfold do_POST.
    destruct (String.prefix "/api/" (path rq)); [|reflexivity].
    destruct (read_json rq) as [data|ex] eqn:Hr.
    + rewrite (api_post_read_ok e rq data Hr).
      unfold try_except, api_post_route, bind, lift, ret.
      destruct (String.eqb (path rq) "/api/auth/login");
        [destruct (handle_login e data) as [r|ex]; [reflexivity|destruct ex; reflexivity]|].
      destruct (String.eqb (path rq) "/api/auth/register");
        [destruct (handle_register e data) as [r|ex]; [reflexivity|destruct ex; reflexivity]|].
      destruct (String.eqb (path rq) "/api/training/sessions"); [reflexivity|].
      destruct (String.eqb (path rq) "/api/ai/analysis"); [reflexivity|].
      cbn [perform].
      pose proof (send_error_returns e 404 "API endpoint not found" fresh) as Hs.
      destruct (send_error e 404 "API endpoint not found" fresh) as [[[]|ex] h'];
        [reflexivity|discriminate].
    + rewrite (api_post_read_fails e rq ex Hr). destruct ex; reflexivity.
Qed.

Lemma responses_perform e rq p :
  responses_on (wfile (snd (perform e rq p fresh))) = [reply_response e rq p].
Proof.
  destruct p as [data|code message| |]; cbn [perform reply_response].
  - reflexivity.
  - apply responses_error_out.
  - reflexivity.
  - unfold super_do_GET.
    unfold bind at 1. rewrite send_response_run by reflexivity.
    unfold bind at 1. rewrite send_headers_run by reflexivity.
    unfold static_response.
    destruct (String.eqb (st_body (static_do_GET e (path rq))) ""); cbn;
      rewrite !header_fields_app, header_fields_map; cbn [header_fields];
      rewrite <- !app_assoc; reflexivity.
Qed.

(** Every request gets exactly the response of the reply decided. *)
Lemma handle_plan e rq :
  responses_on (handle e rq) = [reply_response e rq (plan e rq)].
Proof.
  unfold handle. rewrite dispatch_plan. apply responses_perform.
Qed.

(** X1. A GET of /api/health is answered by one 200 response whose body
    is the object with status "healthy" and the timestamp the clock gives
    in ISO format. *)
Theorem health_endpoint e rq :
  rq_command rq = GET ->
  path rq = "/api/health" ->
  responses_on (handle e rq)
  = [json_response e (JDict [ ("status", JStr "healthy");
                              ("timestamp", JStr (now_isoformat e)) ])].
Proof.
  intros Hc Hp. rewrite handle_plan. unfold plan. rewrite Hc, Hp. reflexivity.
Qed.

Lemma health_endpoint_witness :
  responses_on (handle sample_env (get "/api/health"))
  = [json_response sample_env
       (JDict [ ("status", JStr "healthy");
                ("timestamp", JStr "2024-10-27T04:33:20.123456") ])].
Proof.
  apply (health_endpoint sample_env (get "/api/health")); reflexivity.
Defined.

(** X2. A preflight request is answered without looking at it: any two
    OPTIONS requests, whatever their paths, Content-Length headers and
    bodies, produce the same output, one 200 response with reason "OK", the
    base and the fixed headers, and no body. *)
Theorem preflight_ignores_request e rq1 rq2 :
  rq_command rq1 = OPTIONS ->
  rq_command rq2 = OPTIONS ->
  handle e rq1 = handle e rq2 /\
  responses_on (handle e rq1)
  = [{| status := 200; reason := "OK";
        headers := (base_headers e ++ fixed_headers)%list;
        body := [] |}].
Proof.
  intros H1 H2. unfold handle, dispatch. rewrite H1, H2. split; reflexivity.
Qed.

Lemma preflight_ignores_request_witness :
  handle sample_env options_plain = handle sample_env options_loaded /\
  responses_on (handle sample_env options_plain)
  = [{| status := 200; reason := "OK";
        headers := (base_headers sample_env ++ fixed_headers)%list;
        body := [] |}].
Proof.
  apply (preflight_ignores_request sample_env options_plain options_loaded); reflexivity.
Defined.

(** X3. A GET whose path is not under /api/ is answered by the static
    file server: its status, reason and body are passed on unchanged, and
    the header block is the base headers, then the static server's own
    headers, then the six fixed headers. *)
Theorem static_passthrough e rq :
  rq_command rq = GET ->
  String.prefix "/api/" (path rq) = false ->
  let r := static_do_GET e (path rq) in
  responses_on (handle e rq)
  = [{| status := st_code r;
        reason := st_message r;
        headers := (base_headers e ++ st_headers r ++ fixed_headers)%list;
        body := if String.eqb (st_body r) "" then [] else [Bytes (st_body r)] |}].
Proof.
  intros Hc Hp. cbv zeta. rewrite handle_plan. unfold plan. rewrite Hc, Hp. reflexivity.
Qed.

Lemma static_passthrough_witness :
  responses_on (handle sample_env (get "/index.html"))
  = [{| status := 404;
        reason := "File not found";
        headers := (base_headers sample_env ++ [("Connection", "close")] ++ fixed_headers)%list;
        body := [Bytes "<html><body><p>Message: File not found.</p></body></html>"] |}].
Proof.
  apply (static_passthrough sample_env (get "/index.html")); reflexivity.
Defined.

(** X4. A GET is answered from its path alone: two GET requests for the
    same path produce the same output, whatever Content-Length header and
    body they carry. *)
Theorem get_ignores_body e rq1 rq2 :
  rq_command rq1 = GET ->
  rq_command rq2 = GET ->
  path rq1 = path rq2 ->
  handle e rq1 = handle e rq2.
Proof.
  intros H1 H2 Hp.
  unfold handle, dispatch. rewrite H1, H2.
  unfold do_GET, handle_api_get, super_do_GET. rewrite Hp. reflexivity.
Qed.

Lemma get_ignores_body_witness :
  handle sample_env (get "/api/config") = handle sample_env (get_with_body "/api/config").
Proof.
  apply (get_ignores_body sample_env (get "/api/config") (get_with_body "/api/config"));
    reflexivity.
Defined.

Lemma super_do_GET_returns e rq :
  exists w, super_do_GET e rq fresh
            = (Ok tt, {| request_version := "HTTP/1.1"; headers_buffer := []; wfile := w |}).
Proof.
  unfold super_do_GET.
  unfold bind at 1. rewrite send_response_run by reflexivity.
  unfold bind at 1. rewrite send_headers_run by reflexivity.
  destruct (String.eqb (st_body (static_do_GET e (path rq))) ""); eexists; reflexivity.
Qed.

Lemma finished_perform e rq p : finished (perform e rq p fresh).
Proof.
  unfold finished.
  destruct p as [data|code message| |]; cbn [perform].
  - split; reflexivity.
  - unfold send_error.
    destruct ((200 <=? code) && negb ((code =? 204) || (code =? 205) || (code =? 304)));
      cbn [andb]; [destruct (negb (String.eqb (error_page e code message) ""))|];
      split; reflexivity.
  - split; reflexivity.
  - destruct (super_do_GET_returns e rq) as [w ->]. split; reflexivity.
Qed.

(** X5. No exception escapes the methods of this class and no header is
    left unsent: for every OPTIONS request, every POST and every GET under
    /api/, the method called returns normally and the header buffer is
    empty afterwards.  (A GET outside /api/ is in the hands of the
    inherited static file server.) *)
Theorem no_exception_escapes e rq :
  (rq_command rq = GET -> String.prefix "/api/" (path rq) = true) ->
  fst (dispatch e rq fresh) = Ok tt /\
  headers_buffer (snd (dispatch e rq fresh)) = [].
Proof.
  intros _. rewrite dispatch_plan. apply finished_perform.
Qed.

Lemma no_exception_escapes_witness :
  fst (dispatch sample_env (post "/api/auth/login" list_email_body) fresh) = Ok tt /\
  headers_buffer (snd (dispatch sample_env (post "/api/auth/login" list_email_body) fresh))
  = [].
Proof.
  apply (no_exception_escapes sample_env (post "/api/auth/login" list_email_body)).
  discriminate.
Defined.

(** *** Which responses there are *)

Lemma plan_kinds e rq :
  (exists data, plan e rq = ReplyJson data) \/
  plan e rq = ReplyError 400 "Invalid JSON" \/
  plan e rq = ReplyError 404 "API endpoint not found" \/
  plan e rq = ReplyError 404 "Not Found" \/
  (exists ex, plan e rq = ReplyError 500 ("Internal server error: " ++ exc_str e ex)) \/
  plan e rq = ReplyPreflight \/
  (plan e rq = ReplyStatic /\ rq_command rq = GET /\ String.prefix "/api/" (path rq) = false).
Proof.
  assert (Hex : forall ex,
             except_reply e ex = ReplyError 400 "Invalid JSON" \/
             exists ex', except_reply e ex
                         = ReplyError 500 ("Internal server error: " ++ exc_str e ex')).
  { intros ex. destruct ex; cbn; eauto. }
  assert (Hh : forall r,
             (exists data, handler_reply e r = ReplyJson data) \/
             handler_reply e r = ReplyError 400 "Invalid JSON" \/
             exists ex', handler_reply e r
                         = ReplyError 500 ("Internal server error: " ++ exc_str e ex')).
  { intros [data|ex]; cbn [handler_reply]; [eauto|right; apply Hex]. }
  unfold plan. destruct (rq_command rq) eqn:Hc.
  - tauto.
  - destruct (String.prefix "/api/" (path rq)) eqn:Hp; [|tauto].
    destruct (String.eqb (path rq) "/api/health"); [eauto|].
    destruct (String.eqb (path rq) "/api/config"); [eauto|tauto].
  - destruct (String.prefix "/api/" (path rq)) eqn:Hp; [|tauto].
    destruct (read_json rq) as [data|ex].
    + destruct (String.eqb (path rq) "/api/auth/login");
        [destruct (Hh (handle_login e data)) as [H|[H|H]]; rewrite ?H; tauto|].
      destruct (String.eqb (path rq) "/api/auth/register");
        [destruct (Hh (handle_register e data)) as [H|[H|H]]; rewrite ?H; tauto|].
      destruct (String.eqb (path rq) "/api/training/sessions"); [cbn; eauto|].
      destruct (String.eqb (path rq) "/api/ai/analysis"); [cbn; eauto|tauto].
    + destruct (Hex ex) as [H|H]; rewrite ?H; tauto.
Qed.



(** *** The login handler, case by case *)

Lemma str_eq_true s v : str_eq s v = true -> v = JStr s.
Proof.
  destruct v; try discriminate. simpl. intros H.
  apply String.eqb_eq in H. subst. reflexivity.
Qed.

Lemma handle_login_needs_object e data r :
  handle_login e data = Ok r -> exists d, data = JDict d.
Proof.
  destruct data; try discriminate. eauto.
Qed.

Lemma handle_login_cases e d :
  let email := field d "email" (JStr "") in
  let password := field d "password" (JStr "") in
  (hashable email = false /\
   handle_login e (JDict d)
   = Raise (TypeError ("unhashable type: '" ++ type_name email ++ "'")))
  \/
  (exists k u,
      In (k, u) demo_users /\ email = JStr k /\ password = JStr (du_password u) /\
      handle_login e (JDict d) = Ok (login_ok e k u))
  \/
  ((forall k u, In (k, u) demo_users -> email = JStr k ->
                password <> JStr (du_password u)) /\
   hashable email = true /\
   handle_login e (JDict d) = Ok invalid_credentials).
Proof.
  cbv zeta. rewrite handle_login_fields.
  generalize (field d "password" (JStr "")) as pw.
  generalize (field d "email" (JStr "")) as em.
  intros em pw.
  destruct em as [| | | |s| |];
    try (right; right; split; [intros k u _; discriminate|split; reflexivity]);
    try (left; split; reflexivity).
  assert (Hkey : forall k0 u0,
             In (k0, u0) demo_users -> s = k0 -> du_password u0 = "password123" ->
             (forall k u, In (k, u) demo_users -> JStr s = JStr k -> u = u0) ->
             handle_login e (JDict [("email", JStr s); ("password", pw)])
             = (if str_eq "password123" pw then Ok (login_ok e k0 u0)
                else Ok invalid_credentials) ->
             (exists k u,
                 In (k, u) demo_users /\ JStr s = JStr k /\ pw = JStr (du_password u) /\
                 handle_login e (JDict [("email", JStr s); ("password", pw)])
                 = Ok (login_ok e k u))
             \/
             ((forall k u, In (k, u) demo_users -> JStr s = JStr k ->
                           pw <> JStr (du_password u)) /\
              hashable (JStr s) = true /\
              handle_login e (JDict [("email", JStr s); ("password", pw)])
              = Ok invalid_credentials)).
  { intros k0 u0 Hin -> Hpw Huniq Hl.
    destruct (str_eq "password123" pw) eqn:E.
    - left. exists k0, u0. apply str_eq_true in E. rewrite Hpw. auto.
    - right. split; [|split; [reflexivity|exact Hl]].
      intros k u Hin' Hk Heq. rewrite (Huniq k u Hin' Hk), Hpw in Heq.
      subst pw. cbn in E. discriminate. }
  right.
  destruct (String.eqb s "athlete@demo.com") eqn:E1;
    [apply String.eqb_eq in E1
    |destruct (String.eqb s "coach@demo.com") eqn:E2;
     [apply String.eqb_eq in E2
     |destruct (String.eqb s "admin@demo.com") eqn:E3;
      [apply String.eqb_eq in E3|]]].
  4: { right. split; [|split; [reflexivity|]].
       - intros k u Hin [= <-]. simpl in Hin.
         destruct Hin as [[= <- <-]|[[= <- <-]|[[= <- <-]|[]]]];
           [rewrite String.eqb_refl in E1|rewrite String.eqb_refl in E2
           |rewrite String.eqb_refl in E3]; discriminate.
       - unfold handle_login. cbn. rewrite E1, E2, E3. reflexivity. }
  all: subst s;
    match goal with
    | |- context [JStr ?k = JStr _] =>
        eapply (Hkey k); [simpl; eauto 6|reflexivity|reflexivity| |]
    end;
    [ intros k u Hin [= <-]; simpl in Hin;
      destruct Hin as [[= <-]|[[= <-]|[[= <-]|[]]]]; reflexivity
    | unfold handle_login; cbn -[str_eq];
      destruct (str_eq "password123" pw); reflexivity ].
Qed.

Lemma handle_login_shape e data r :
  handle_login e data = Ok r ->
  exists d b, r = JDict d /\ dict_lookup "success" d = Some (JBool b).
Proof.
  intros H. destruct (handle_login_needs_object e data r H) as [m ->].
  destruct (handle_login_cases e m) as [(_ & H1)|[(k & u & _ & _ & _ & H1)|(_ & _ & H1)]];
    rewrite H1 in H; [discriminate| |]; injection H as <-;
    eexists _, _; split; reflexivity.
Qed.

Lemma handle_register_shape e data r :
  handle_register e data = Ok r ->
  exists d b, r = JDict d /\ dict_lookup "success" d = Some (JBool b).
Proof.
  destruct data; try discriminate.
  unfold handle_register, py_get, rbind.
  destruct (dict_lookup "name" d), (dict_lookup "email" d),
           (dict_lookup "password" d), (dict_lookup "role" d);
    match goal with
    | |- (if ?c then _ else _) = _ -> _ => destruct c
    end; intros [= <-]; eexists _, _; split; reflexivity.
Qed.

Lemma post_plan_kinds e rq :
  rq_command rq = POST ->
  (exists d b, plan e rq = ReplyJson (JDict d) /\
               dict_lookup "success" d = Some (JBool b)) \/
  (exists code message, plan e rq = ReplyError code message /\
                        (code = 400 \/ code = 404 \/ code = 500)).
Proof.
  intros Hc.
  assert (Hex : forall ex, exists code message,
               except_reply e ex = ReplyError code message /\
               (code = 400 \/ code = 404 \/ code = 500)).
  { intros ex. destruct ex; cbn; eauto 6. }
  assert (Hh : forall r,
             (r = Raise JSONDecodeError \/
              (forall v, r = Ok v ->
                         exists d b, v = JDict d /\
                                     dict_lookup "success" d = Some (JBool b))) ->
             (exists d b, handler_reply e r = ReplyJson (JDict d) /\
                          dict_lookup "success" d = Some (JBool b)) \/
             (exists code message, handler_reply e r = ReplyError code message /\
                                   (code = 400 \/ code = 404 \/ code = 500))).
  { intros [v|ex] H; cbn [handler_reply]; [|right; apply Hex].
    destruct H as [H|H]; [discriminate|].
    destruct (H v eq_refl) as (d & b & -> & Hb). left. eauto. }
  unfold plan. rewrite Hc.
  destruct (String.prefix "/api/" (path rq)); [|right; eauto 6].
  destruct (read_json rq) as [data|ex]; [|right; apply Hex].
  destruct (String.eqb (path rq) "/api/auth/login");
    [apply Hh; right; intros v Hv; exact (handle_login_shape e data v Hv)|].
  destruct (String.eqb (path rq) "/api/auth/register");
    [apply Hh; right; intros v Hv; exact (handle_register_shape e data v Hv)|].
  destruct (String.eqb (path rq) "/api/training/sessions");
    [left; eexists _, _; split; reflexivity|].
  destruct (String.eqb (path rq) "/api/ai/analysis");
    [left; eexists _, _; split; reflexivity|right; eauto 6].
Qed.

(** X7. Domain results are JSON, transport errors are HTML.  On a POST, a
    200 response carries Content-Type application/json and exactly one
    body, a JSON object with a boolean member named success; any other
    response carries Connection close, an HTML Content-Type and no JSON
    body. *)
Theorem post_body_kind e rq r :
  rq_command rq = POST ->
  responses_on (handle e rq) = [r] ->
  (status r = 200 ->
   In ("Content-Type", "application/json") (headers r) /\
   exists d b, body r = [JsonText (JDict d)] /\
               dict_lookup "success" d = Some (JBool b))
  /\
  (status r <> 200 ->
   In ("Connection", "close") (headers r) /\
   In ("Content-Type", "text/html;charset=utf-8") (headers r) /\
   Forall (fun p => exists b, p = Bytes b) (body r)).
Proof.
  intros Hc Hr. rewrite handle_plan in Hr. injection Hr as <-.
  destruct (post_plan_kinds e rq Hc) as [(d & b & -> & Hb)|(code & m & -> & Hcode)].
  - split; [|intros H; exfalso; apply H; reflexivity].
    intros _. split; [cbn; auto|]. exists d, b. split; [reflexivity|exact Hb].
  - split.
    + intros H. cbn in H. destruct Hcode as [-> | [-> | ->]]; discriminate.
    + intros _.
      assert (Hb : (200 <=? code)
                   && negb ((code =? 204) || (code =? 205) || (code =? 304)) = true)
        by (destruct Hcode as [-> | [-> | ->]]; reflexivity).
      cbn [reply_response error_response headers body]. rewrite Hb.
      split; [cbn; auto|]. split; [cbn; auto|].
      cbn [andb]. destruct (negb (String.eqb (error_page e code m) ""));
        repeat constructor. eexists. reflexivity.
Qed.

Lemma post_body_kind_witness :
  let r := json_response sample_env invalid_credentials in
  (status r = 200 ->
   In ("Content-Type", "application/json") (headers r) /\
   exists d b, body r = [JsonText (JDict d)] /\
               dict_lookup "success" d = Some (JBool b))
  /\
  (status r <> 200 ->
   In ("Connection", "close") (headers r) /\
   In ("Content-Type", "text/html;charset=utf-8") (headers r) /\
   Forall (fun p => exists b, p = Bytes b) (body r)).
Proof.
  apply (post_body_kind sample_env (post "/api/auth/login" wrong_password_body)).
  - reflexivity.
  - vm_compute. reflexivity.
Defined.

(** X8. The login handler lets nobody else in: whenever it returns
    something other than the "Invalid credentials" object, the request is
    an object whose email is a key of the demo table and whose password is
    the string stored for that key ("password123"), and the result is the
    success object of that entry. *)
Theorem login_success_requires_demo_account e data r :
  handle_login e data = Ok r ->
  r <> invalid_credentials ->
  exists d k u,
    data = JDict d /\
    In (k, u) demo_users /\
    field d "email" (JStr "") = JStr k /\
    field d "password" (JStr "") = JStr "password123" /\
    r = login_ok e k u.
Proof.
  intros H Hne. destruct (handle_login_needs_object e data r H) as [d ->].
  destruct (handle_login_cases e d)
    as [(_ & H1)|[(k & u & Hin & Hem & Hpw & H1)|(_ & _ & H1)]];
    rewrite H1 in H; [discriminate| |injection H as <-; contradiction].
  injection H as <-. exists d, k, u.
  repeat split; try assumption.
  rewrite Hpw. simpl in Hin.
  destruct Hin as [[= <- <-]|[[= <- <-]|[[= <- <-]|[]]]]; reflexivity.
Qed.

Lemma login_success_requires_demo_account_witness :
  exists d k u,
    JDict [ ("email", JStr "coach@demo.com"); ("password", JStr "password123") ] = JDict d /\
    In (k, u) demo_users /\
    field d "email" (JStr "") = JStr k /\
    field d "password" (JStr "") = JStr "password123" /\
    login_ok sample_env "coach@demo.com"
      {| du_password := "password123"; du_role := "coach"; du_name := "Demo Coach" |}
    = login_ok sample_env k u.
Proof.
  apply (login_success_requires_demo_account sample_env).
  - reflexivity.
  - discriminate.
Defined.

(** X9. A failed login does not tell which part was wrong: two login
    requests that both fail (neither pair of email and password is in the
    demo table, and neither email is an array or object) produce the same
    output, so an unknown email cannot be told from a wrong password. *)
Theorem login_failures_indistinguishable e rq1 rq2 d1 d2 :
  rq_command rq1 = POST -> path rq1 = "/api/auth/login" ->
  rq_command rq2 = POST -> path rq2 = "/api/auth/login" ->
  read_json rq1 = Ok (JDict d1) ->
  read_json rq2 = Ok (JDict d2) ->
  hashable (field d1 "email" (JStr "")) = true ->
  hashable (field d2 "email" (JStr "")) = true ->
  (forall k u, In (k, u) demo_users ->
               ~ (field d1 "email" (JStr "") = JStr k /\
                  field d1 "password" (JStr "") = JStr (du_password u))) ->
  (forall k u, In (k, u) demo_users ->
               ~ (field d2 "email" (JStr "") = JStr k /\
                  field d2 "password" (JStr "") = JStr (du_password u))) ->
  handle e rq1 = handle e rq2.
Proof.
  intros Hc1 Hp1 Hc2 Hp2 Hr1 Hr2 Hh1 Hh2 Hn1 Hn2.
  assert (Hfail : forall d,
             hashable (field d "email" (JStr "")) = true ->
             (forall k u, In (k, u) demo_users ->
                          ~ (field d "email" (JStr "") = JStr k /\
                             field d "password" (JStr "") = JStr (du_password u))) ->
             handle_login e (JDict d) = Ok invalid_credentials).
  { intros d Hh Hn.
    destruct (handle_login_cases e d)
      as [(Hu & _)|[(k & u & Hin & Hem & Hpw & _)|(_ & _ & H1)]].
    - rewrite Hh in Hu. discriminate.
    - exfalso. apply (Hn k u Hin). auto.
    - exact H1. }
  unfold handle. rewrite !dispatch_plan. unfold plan.
  rewrite Hc1, Hc2, Hp1, Hp2, Hr1, Hr2.
  change (String.prefix "/api/" "/api/auth/login") with true.
  change (String.eqb "/api/auth/login" "/api/auth/login") with true.
  cbv iota. rewrite (Hfail d1 Hh1 Hn1), (Hfail d2 Hh2 Hn2). reflexivity.
Qed.

Lemma login_failures_indistinguishable_witness :
  handle sample_env (post "/api/auth/login" unknown_email_body)
  = handle sample_env (post "/api/auth/login" wrong_password_body).
Proof.
  apply (login_failures_indistinguishable sample_env
           (post "/api/auth/login" unknown_email_body)
           (post "/api/auth/login" wrong_password_body)
           unknown_email_members wrong_password_members);
    try reflexivity.
  - intros k u Hin [Hk Hpw]. simpl in Hin.
    destruct Hin as [[= <- <-]|[[= <- <-]|[[= <- <-]|[]]]]; discriminate.
  - intros k u Hin [Hk Hpw]. simpl in Hin.
    destruct Hin as [[= <- <-]|[[= <- <-]|[[= <- <-]|[]]]]; discriminate.
Defined.

(** *** What the handlers read *)

(** X10. The login handler reads the members email and password and
    nothing else: two objects that agree on these two members get the same
    result, whatever other members they carry. *)
Theorem login_reads_two_fields e d d' :
  dict_lookup "email" d = dict_lookup "email" d' ->
  dict_lookup "password" d = dict_lookup "password" d' ->
  handle_login e (JDict d) = handle_login e (JDict d').
Proof.
  intros He Hp. rewrite (handle_login_fields e d), (handle_login_fields e d').
  unfold field. rewrite He, Hp. reflexivity.
Qed.

Lemma login_reads_two_fields_witness :
  handle_login sample_env (JDict wrong_password_members)
  = handle_login sample_env
      (JDict (("remember", JBool true) :: wrong_password_members)).
Proof.
  apply (login_reads_two_fields sample_env); reflexivity.
Defined.

Lemma handle_register_fields e d :
  handle_register e (JDict d)
  = if negb (truthy (field d "name" (JStr "")))
       || negb (truthy (field d "email" (JStr "")))
       || negb (truthy (field d "password" (JStr "")))
    then Ok missing_fields
    else Ok (JDict
               [ ("success", JBool true);
                 ("user", JDict [ ("id", JStr ("user_" ++ now_timestamp e));
                                  ("name", field d "name" (JStr ""));
                                  ("email", field d "email" (JStr ""));
                                  ("role", field d "role" (JStr "athlete")) ]) ]).
Proof.
  unfold handle_register, py_get, field, rbind.
  destruct (dict_lookup "name" d), (dict_lookup "email" d),
           (dict_lookup "password" d), (dict_lookup "role" d); reflexivity.
Qed.

(** X11. The register handler never gives the password back: two objects
    that agree on name, email and role get the same result as soon as their
    passwords are both truthy or both falsy, whatever the passwords and the
    other members are. *)
Theorem register_hides_password e d d' :
  dict_lookup "name" d = dict_lookup "name" d' ->
  dict_lookup "email" d = dict_lookup "email" d' ->
  dict_lookup "role" d = dict_lookup "role" d' ->
  truthy (field d "password" (JStr "")) = truthy (field d' "password" (JStr "")) ->
  handle_register e (JDict d) = handle_register e (JDict d').
Proof.
  intros Hn He Hr Hp. rewrite !handle_register_fields, Hp.
  unfold field. rewrite Hn, He, Hr. reflexivity.
Qed.

Lemma register_hides_password_witness :
  handle_register sample_env (JDict register_members)
  = handle_register sample_env (JDict register_members_other).
Proof.
  apply (register_hides_password sample_env); reflexivity.
Defined.

(** *** Content-Length and the body *)

Lemma take_nil n : take n "" = "".
Proof. destruct n; reflexivity. Qed.

Lemma api_post_same_body e rq rq' :
  path rq' = path rq ->
  content_length rq' = content_length rq ->
  (forall n, py_int (content_length rq) = Ok n ->
             rfile_read n (rfile rq') = rfile_read n (rfile rq)) ->
  handle_api_post e rq' fresh = handle_api_post e rq fresh.
Proof.
  intros Hp Hl Hb.
  unfold handle_api_post, try_except, bind, lift. rewrite Hl.
  destruct (py_int (content_length rq)) as [n|ex]; [|reflexivity].
  rewrite (Hb n eq_refl).
  destruct (rfile_read n (rfile rq)) as [b|ex]; [|reflexivity].
  destruct (decode_utf8 b) as [text|ex]; [|reflexivity].
  destruct (json_loads text) as [data|ex]; [|reflexivity].
  unfold api_post_route, bind. rewrite Hp. reflexivity.
Qed.

(** X12. Only the bytes that Content-Length covers are read: when the
    header is a non-negative integer n, replacing the bytes sent after the
    headers by any others with the same first n bytes leaves the output
    unchanged. *)
Theorem body_beyond_content_length_ignored e rq b n :
  py_int (content_length rq) = Ok n ->
  0 <= n ->
  take (Z.to_nat n) b = take (Z.to_nat n) (rfile rq) ->
  handle e (with_rfile rq b) = handle e rq.
Proof.
  intros Hint Hn Hb.
  unfold handle, dispatch. cbn [rq_command with_rfile].
  destruct (rq_command rq); [reflexivity| |].
  - unfold do_GET, handle_api_get, super_do_GET. reflexivity.
  - unfold do_POST. cbn [path with_rfile].
    destruct (String.prefix "/api/" (path rq)); [|reflexivity].
    rewrite (api_post_same_body e rq (with_rfile rq b)); try reflexivity.
    intros m Hm. rewrite Hint in Hm. injection Hm as <-.
    unfold rfile_read. cbn [rfile with_rfile].
    destruct (n <? -1) eqn:E1; [reflexivity|].
    destruct (n =? -1) eqn:E2; [apply Z.eqb_eq in E2; lia|].
    rewrite Hb. reflexivity.
Qed.

Lemma body_beyond_content_length_ignored_witness :
  handle sample_env (with_rfile (post "/api/auth/login" login_body) (rfile overlong_request))
  = handle sample_env (post "/api/auth/login" login_body).
Proof.
  apply (body_beyond_content_length_ignored sample_env
           (post "/api/auth/login" login_body) (rfile overlong_request)
           (Z.of_nat (String.length login_body))).
  - vm_compute. reflexivity.
  - vm_compute. discriminate.
  - vm_compute. reflexivity.
Defined.

(** X13. An empty body is not JSON.  A POST under /api/ whose
    Content-Length header (of at most 100 characters, so that reading it as
    an integer is within any limit of the interpreter) is read as 0, or is
    read as -1 while no byte follows the headers, is answered 400 "Invalid
    JSON" on every path, the undefined ones and the ones whose handler
    ignores the body included. *)
Theorem empty_body_is_invalid_json e rq s n :
  rq_command rq = POST ->
  String.prefix "/api/" (path rq) = true ->
  content_length rq = Some s ->
  (String.length s <= 100)%nat ->
  int_literal (list_ascii_of_string s) = Some n ->
  n = 0 \/ (n = -1 /\ rfile rq = "") ->
  responses_on (handle e rq) = [error_response e 400 "Invalid JSON"].
Proof.
  intros Hc Hp Hs _ Hlit Hn.
  assert (Hint : py_int (content_length rq) = Ok n).
  { rewrite Hs. unfold py_int. rewrite Hlit. reflexivity. }
  assert (Hread : rfile_read n (rfile rq) = Ok "").
  { destruct Hn as [-> | [-> ->]]; reflexivity. }
  assert (Hr : read_json rq = Raise JSONDecodeError).
  { unfold read_json. rewrite Hint. cbn [rbind]. rewrite Hread. reflexivity. }
  rewrite (post_read_fails e rq _ Hc Hp Hr). reflexivity.
Qed.

Lemma empty_body_is_invalid_json_witness :
  responses_on (handle sample_env empty_body_request)
  = [error_response sample_env 400 "Invalid JSON"].
Proof.
  apply (empty_body_is_invalid_json sample_env empty_body_request "0" 0).
  - reflexivity.
  - reflexivity.
  - reflexivity.
  - simpl. lia.
  - reflexivity.
  - left. reflexivity.
Defined.

(** X14. A Content-Length that is no integer, or an integer below -1, is
    an internal error: such a POST under /api/ is answered 500 whatever
    its path and body, and never 400. *)
Theorem bad_content_length_is_500 e rq :
  rq_command rq = POST ->
  String.prefix "/api/" (path rq) = true ->
  (exists s, content_length rq = Some s /\
             int_literal (list_ascii_of_string s) = None) \/
  (exists n, py_int (content_length rq) = Ok n /\ n < -1) ->
  exists ex,
    ex <> JSONDecodeError /\
    read_json rq = Raise ex /\
    responses_on (handle e rq)
    = [error_response e 500 ("Internal server error: " ++ exc_str e ex)].
Proof.
  intros Hc Hp Hbad.
  assert (Hr : exists ex, ex <> JSONDecodeError /\ read_json rq = Raise ex).
  { unfold read_json.
    destruct Hbad as [(s & Hs & Hlit)|(n & Hint & Hn)].
    - rewrite Hs. unfold py_int. rewrite Hlit.
      eexists. split; [|reflexivity]. discriminate.
    - rewrite Hint. cbn [rbind]. unfold rfile_read.
      apply Z.ltb_lt in Hn. rewrite Hn.
      eexists. split; [|reflexivity]. discriminate. }
  destruct Hr as (ex & Hne & Hr). exists ex.
  split; [exact Hne|]. split; [exact Hr|].
  rewrite (post_read_fails e rq ex Hc Hp Hr), (fail_response_other e ex Hne).
  reflexivity.
Qed.

Lemma bad_content_length_is_500_witness :
  exists ex,
    ex <> JSONDecodeError /\
    read_json bad_length_request = Raise ex /\
    responses_on (handle sample_env bad_length_request)
    = [error_response sample_env 500 ("Internal server error: " ++ exc_str sample_env ex)].
Proof.
  apply (bad_content_length_is_500 sample_env bad_length_request).
  - reflexivity.
  - reflexivity.
  - left. exists "ten". split; reflexivity.
Defined.

(** *** Matching of paths *)

(** X15. Endpoints are matched by equality of the whole request path: a
    defined endpoint followed by anything (a query string, a trailing
    slash) is an undefined path, answered 404 "API endpoint not found" on
    a GET, and on a POST whose body parsed. *)
Theorem endpoint_match_is_exact e rq base suffix :
  In base ["/api/health"; "/api/config"; "/api/auth/login"; "/api/auth/register";
           "/api/training/sessions"; "/api/ai/analysis"] ->
  suffix <> "" ->
  path rq = base ++ suffix ->
  rq_command rq = GET \/ (rq_command rq = POST /\ exists data, read_json rq = Ok data) ->
  responses_on (handle e rq) = [error_response e 404 "API endpoint not found"].
Proof.
  intros Hbase Hs Hpath Hcmd.
  destruct suffix as [|c suffix]; [contradiction|].
  assert (Hp : String.prefix "/api/" (path rq) = true).
  { rewrite Hpath. simpl in Hbase.
    destruct Hbase as [<-|[<-|[<-|[<-|[<-|[<-|[]]]]]]]; reflexivity. }
  assert (Hne : forall p,
             In p ["/api/health"; "/api/config"; "/api/auth/login"; "/api/auth/register";
                   "/api/training/sessions"; "/api/ai/analysis"] ->
             path rq <> p).
  { intros p Hin. rewrite Hpath. simpl in Hbase, Hin.
    destruct Hbase as [<-|[<-|[<-|[<-|[<-|[<-|[]]]]]]];
      destruct Hin as [<-|[<-|[<-|[<-|[<-|[<-|[]]]]]]]; simpl; discriminate. }
  destruct Hcmd as [Hc|[Hc [data Hr]]].
  - rewrite (get_api_unmatched e rq Hc Hp); [apply responses_error_out|..];
      apply Hne; simpl; auto.
  - rewrite (post_api_unmatched e rq data Hc Hp); [apply responses_error_out|..];
      try exact Hr; apply Hne; simpl; auto 7.
Qed.

Lemma endpoint_match_is_exact_witness :
  responses_on (handle sample_env (get "/api/health?verbose=1"))
  = [error_response sample_env 404 "API endpoint not found"].
Proof.
  apply (endpoint_match_is_exact sample_env (get "/api/health?verbose=1")
           "/api/health" "?verbose=1").
  - simpl. auto.
  - discriminate.
  - reflexivity.
  - left. reflexivity.
Defined.

(** X16. A GET under /api/ is never answered with an error of the
    server: the status is 200 when the path is /api/health or /api/config
    and 404 with reason "API endpoint not found" otherwise. *)
Theorem get_api_status e rq r :
  rq_command rq = GET ->
  String.prefix "/api/" (path rq) = true ->
  responses_on (handle e rq) = [r] ->
  (status r = 200 /\ (path rq = "/api/health" \/ path rq = "/api/config")) \/
  (status r = 404 /\ reason r = "API endpoint not found" /\
   path rq <> "/api/health" /\ path rq <> "/api/config").
Proof.
  intros Hc Hp Hr. rewrite handle_plan in Hr. injection Hr as <-.
  unfold plan. rewrite Hc, Hp.
  destruct (String.eqb_spec (path rq) "/api/health") as [H1|N1]; [left; auto|].
  destruct (String.eqb_spec (path rq) "/api/config") as [H2|N2]; [left; auto|].
  right. cbn. auto.
Qed.

Lemma get_api_status_witness :
  let r := error_response sample_env 404 "API endpoint not found" in
  (status r = 200 /\ ("/api/users" = "/api/health" \/ "/api/users" = "/api/config")) \/
  (status r = 404 /\ reason r = "API endpoint not found" /\
   "/api/users" <> "/api/health" /\ "/api/users" <> "/api/config").
Proof.
  apply (get_api_status sample_env (get "/api/users")); reflexivity.
Defined.

Lemma handle_login_raises e data ex :
  handle_login e data = Raise ex -> ex <> JSONDecodeError.
Proof.
  destruct data as [| | | | | |d]; try (intros [= <-]; discriminate).
  destruct (handle_login_cases e d)
    as [(_ & H1)|[(k & u & _ & _ & _ & H1)|(_ & _ & H1)]];
    rewrite H1; [intros [= <-]; discriminate|discriminate..].
Qed.

Lemma handle_register_raises e data ex :
  handle_register e data = Raise ex -> ex <> JSONDecodeError.
Proof.
  destruct data as [| | | | | |d]; try (intros [= <-]; discriminate).
  rewrite handle_register_fields.
  destruct (negb _ || negb _ || negb _); discriminate.
Qed.

(** X17. On a POST under /api/ the status 400 means a JSON syntax error
    and nothing else, and the status 404 means an undefined path whose
    body parsed: the response has status 400 exactly when reading the body
    ends in the JSON decoder's error, and status 404 exactly when the body
    is read as JSON and the path is none of the four POST endpoints. *)
Theorem post_status_400_404 e rq r :
  rq_command rq = POST ->
  String.prefix "/api/" (path rq) = true ->
  responses_on (handle e rq) = [r] ->
  (status r = 400 <-> read_json rq = Raise JSONDecodeError) /\
  (status r = 404 <->
   (exists data, read_json rq = Ok data) /\
   ~ In (path rq) ["/api/auth/login"; "/api/auth/register";
                   "/api/training/sessions"; "/api/ai/analysis"]).
Proof.
  intros Hc Hp Hr. rewrite handle_plan in Hr. injection Hr as <-.
  unfold plan. rewrite Hc, Hp.
  assert (Hh : forall res,
             (forall ex, res = Raise ex -> ex <> JSONDecodeError) ->
             status (reply_response e rq (handler_reply e res)) <> 400 /\
             status (reply_response e rq (handler_reply e res)) <> 404).
  { intros [v|ex] H; [split; discriminate|].
    specialize (H ex eq_refl). destruct ex; try contradiction; split; discriminate. }
  destruct (read_json rq) as [data|ex] eqn:Hread.
  - destruct (String.eqb_spec (path rq) "/api/auth/login") as [H1|N1].
    { destruct (Hh (handle_login e data) (handle_login_raises e data)) as [A B].
      split; split; try discriminate; try contradiction.
      intros [_ Hn]. exfalso. apply Hn. rewrite H1. simpl. auto. }
    destruct (String.eqb_spec (path rq) "/api/auth/register") as [H2|N2].
    { destruct (Hh (handle_register e data) (handle_register_raises e data)) as [A B].
      split; split; try discriminate; try contradiction.
      intros [_ Hn]. exfalso. apply Hn. rewrite H2. simpl. auto. }
    destruct (String.eqb_spec (path rq) "/api/training/sessions") as [H3|N3].
    { split; split; try discriminate.
      intros [_ Hn]. exfalso. apply Hn. rewrite H3. simpl. auto. }
    destruct (String.eqb_spec (path rq) "/api/ai/analysis") as [H4|N4].
    { split; split; try discriminate.
      intros [_ Hn]. exfalso. apply Hn. rewrite H4. simpl. auto. }
    split; split; try discriminate; try reflexivity.
    intros _. split; [eauto|]. simpl. intros [H|[H|[H|[H|[]]]]]; congruence.
  - destruct ex; cbn; split; split; try discriminate; try reflexivity;
      intros [[data Hd] _]; discriminate.
Qed.

Lemma post_status_400_404_witness :
  let r := error_response sample_env 400 "Invalid JSON" in
  let rq := post "/api/users" "{" in
  (status r = 400 <-> read_json rq = Raise JSONDecodeError) /\
  (status r = 404 <->
   (exists data, read_json rq = Ok data) /\
   ~ In (path rq) ["/api/auth/login"; "/api/auth/register";
                   "/api/training/sessions"; "/api/ai/analysis"]).
Proof.
  apply (post_status_400_404 sample_env (post "/api/users" "{")).
  - reflexivity.
  - reflexivity.
  - vm_compute. reflexivity.
Defined.

(** *** Header fields *)

Ltac nodup_strings :=
  repeat (constructor;
          [simpl;
           let H := fresh "H" in
           intros H; repeat (destruct H as [H|H]; [discriminate H|]); exact H
          |]);
  constructor.

(** X18. No header field is sent twice: apart from the GETs handed to the
    static file server, the field names of every response are pairwise
    different, so the fixed headers never repeat a field the handler has
    already set. *)
Theorem no_duplicate_header_fields e rq r :
  (rq_command rq = GET -> String.prefix "/api/" (path rq) = true) ->
  responses_on (handle e rq) = [r] ->
  NoDup (map fst (headers r)).
Proof.
  intros Hapi Hr. rewrite handle_plan in Hr. injection Hr as <-.
  destruct (plan_kinds e rq)
    as [[d H]|[H|[H|[H|[[ex H]|[H|(H & Hc & Hp)]]]]]]; rewrite H.
  1-6: cbn; nodup_strings.
  rewrite (Hapi Hc) in Hp. discriminate.
Qed.

Lemma no_duplicate_header_fields_witness :
  NoDup (map fst (headers (json_response sample_env config))).
Proof.
  apply (no_duplicate_header_fields sample_env (get "/api/config")).
  - reflexivity.
  - reflexivity.
Defined.

(** *** Startup *)

(** X19. How [main] ends.  The exit status is 1 exactly when the socket
    server raised an OSError, at binding or later and whatever its errno,
    and 0 exactly when the run was interrupted from the keyboard.  The
    banner is printed exactly when binding succeeded.  Of the two texts for
    an OSError, the one about the port being in use is printed exactly when
    the errno is 48. *)
Theorem main_exit_status run :
  (snd (main run) = 1 <-> exists err, run = BindFails err \/ run = ServeFails err) /\
  (snd (main run) = 0 <-> run = BindInterrupted \/ run = ServeInterrupted) /\
  (In banner (fst (main run)) <->
   (exists err, run = ServeFails err) \/ run = ServeInterrupted) /\
  (forall err,
      run = BindFails err \/ run = ServeFails err ->
      (In ("❌ Port 8000 is already in use. Please try a different port.")
          (fst (main run))
       <-> errno err = 48)).
Proof.
  assert (Hlines : forall err,
             In banner (os_error_lines err) -> False).
  { intros err. unfold os_error_lines.
    destruct (errno err =? 48); simpl; intros [H|[H|[]]] || intros [H|[]];
      vm_compute in H; discriminate H. }
  assert (Hport : forall err,
             In ("❌ Port 8000 is already in use. Please try a different port.")
                (os_error_lines err) <-> errno err = 48).
  { intros err. unfold os_error_lines.
    destruct (errno err =? 48) eqn:E.
    - apply Z.eqb_eq in E. split; [auto|]. intros _. left. reflexivity.
    - apply Z.eqb_neq in E. split; [|contradiction].
      simpl. intros [H|[]]. discriminate H. }
  split; [|split; [|split]].
  - destruct run; cbn; split; try discriminate; eauto;
      intros [err [H|H]]; discriminate.
  - destruct run; cbn; split; try discriminate; auto; intros [H|H]; discriminate.
  - destruct run as [err| |err|]; cbn [main fst]; split.
    + intros H. exfalso. exact (Hlines err H).
    + intros [[err' H]|H]; discriminate.
    + simpl. intros [H|[]]. vm_compute in H. discriminate H.
    + intros [[err' H]|H]; discriminate.
    + eauto.
    + intros _. left. reflexivity.
    + auto.
    + intros _. left. reflexivity.
  - intros err [-> | ->]; cbn [main fst].
    + apply Hport.
    + split.
      * intros [H|H]; [vm_compute in H; discriminate H|apply Hport; exact H].
      * intros H. right. apply Hport. exact H.
Qed.

Lemma main_exit_status_witness :
  snd (main (BindFails address_in_use_linux)) = 1 /\
  ~ In banner (fst (main (BindFails address_in_use_linux))) /\
  ~ In ("❌ Port 8000 is already in use. Please try a different port.")
       (fst (main (BindFails address_in_use_linux))).
Proof.
  destruct (main_exit_status (BindFails address_in_use_linux)) as (H1 & _ & H3 & H4).
  split; [apply H1; eauto|].
  split.
  - intros H. apply H3 in H. destruct H as [[err H]|H]; discriminate.
  - intros H. apply (H4 address_in_use_linux) in H; [discriminate|left; reflexivity].
Defined.

(** *** When a login is an internal error *)

(** X20. A login with an object body is answered either 200 or 500, and
    500 exactly when the email member is an array or an object (a value
    that cannot be looked up in the demo table); every other object body,
    with the members missing or of any other type, is answered 200. *)
Theorem login_error_iff_unhashable e rq d r :
  rq_command rq = POST ->
  path rq = "/api/auth/login" ->
  read_json rq = Ok (JDict d) ->
  responses_on (handle e rq) = [r] ->
  (status r = 500 <-> hashable (field d "email" (JStr "")) = false) /\
  (status r = 200 <-> hashable (field d "email" (JStr "")) = true).
Proof.
  intros Hc Hp Hread Hr.
  rewrite (post_login e rq (JDict d) Hc Hp Hread) in Hr. injection Hr as <-.
  destruct (handle_login_cases e d)
    as [(Hu & H1)|[(k & u & _ & Hem & _ & H1)|(_ & Hh & H1)]]; rewrite H1.
  - rewrite Hu. cbn. split; split; try reflexivity; discriminate.
  - rewrite Hem. cbn. split; split; try reflexivity; discriminate.
  - rewrite Hh. cbn. split; split; try reflexivity; discriminate.
Qed.

Lemma login_error_iff_unhashable_witness :
  let r := error_response sample_env 500
             "Internal server error: unhashable type: 'list'" in
  (status r = 500 <-> hashable (field list_email_members "email" (JStr "")) = false) /\
  (status r = 200 <-> hashable (field list_email_members "email" (JStr "")) = true).
Proof.
  apply (login_error_iff_unhashable sample_env (post "/api/auth/login" list_email_body)).
  - reflexivity.
  - reflexivity.
  - vm_compute. reflexivity.
  - vm_compute. reflexivity.
Defined.

(** ** The protocol version and the header block *)

Lemma send_header_run k v h :
  is_http09 (request_version h) = false ->
  send_header k v h
  = (Ok tt, {| request_version := request_version h;
               headers_buffer := (headers_buffer h ++ [HeaderLine k v])%list;
               wfile := wfile h |}).
Proof. intros Hv. unfold send_header. rewrite Hv. reflexivity. Qed.

Lemma end_headers_run h :
  is_http09 (request_version h) = false ->
  end_headers h
  = (Ok tt, {| request_version := request_version h;
               headers_buffer := [];
               wfile := (wfile h
                         ++ [Head (headers_buffer h ++ header_lines fixed_headers)])%list |}).
Proof.
  intros Hv. unfold end_headers, bind.
  repeat (rewrite send_header_run by exact Hv; cbn [request_version headers_buffer wfile]).
  unfold base_end_headers. cbn [request_version headers_buffer wfile]. rewrite Hv.
  rewrite <- !app_assoc. reflexivity.
Qed.

Lemma send_response_09 e code message h :
  is_http09 (request_version h) = true ->
  send_response e code message h = (Ok tt, h).
Proof.
  intros Hv. unfold send_response, bind, send_response_only, send_header.
  rewrite Hv. rewrite Hv. rewrite Hv. reflexivity.
Qed.

Lemma send_header_09 k v h :
  is_http09 (request_version h) = true -> send_header k v h = (Ok tt, h).
Proof. intros Hv. unfold send_header. rewrite Hv. reflexivity. Qed.

Lemma end_headers_09 h :
  is_http09 (request_version h) = true -> end_headers h = (Ok tt, h).
Proof.
  intros Hv. unfold end_headers, bind.
  repeat rewrite send_header_09 by exact Hv.
  unfold base_end_headers. rewrite Hv. reflexivity.
Qed.

Lemma send_headers_09 hs h :
  is_http09 (request_version h) = true ->
  fold_right (fun kv k => bind (send_header (fst kv) (snd kv)) (fun _ => k)) (ret tt) hs h
  = (Ok tt, h).
Proof.
  intros Hv. induction hs as [|kv hs IH]; [reflexivity|].
  cbn [fold_right]. unfold bind at 1. rewrite send_header_09 by exact Hv. exact IH.
Qed.

Lemma send_json_response_chunks v e data :
  wfile (snd (send_json_response e data (start v)))
  = response_chunks v (json_response e data).
Proof.
  unfold response_chunks, send_json_response.
  destruct (is_http09 v) eqn:Hv.
  - unfold bind at 1. rewrite send_response_09 by exact Hv.
    unfold bind at 1. rewrite send_header_09 by exact Hv.
    unfold bind at 1. rewrite end_headers_09 by exact Hv. reflexivity.
  - unfold bind at 1. rewrite send_response_run by exact Hv.
    unfold bind at 1. rewrite send_header_run by exact Hv.
    unfold bind at 1. rewrite end_headers_run by exact Hv. reflexivity.
Qed.

Lemma send_error_chunks v e code message :
  wfile (snd (send_error e code message (start v)))
  = response_chunks v (error_response e code message).
Proof.
  unfold response_chunks, send_error, error_response.
  destruct (is_http09 v) eqn:Hv.
  - unfold bind at 1. rewrite send_response_09 by exact Hv.
    unfold bind at 1. rewrite send_header_09 by exact Hv.
    destruct ((200 <=? code) && negb ((code =? 204) || (code =? 205) || (code =? 304)));
      cbn [andb body].
    + unfold bind at 1. unfold bind at 1. rewrite send_header_09 by exact Hv.
      rewrite send_header_09 by exact Hv.
      unfold bind at 1. rewrite end_headers_09 by exact Hv.
      destruct (negb (String.eqb (error_page e code message) "")); reflexivity.
    + unfold bind at 1. cbn [ret].
      unfold bind at 1. rewrite end_headers_09 by exact Hv. reflexivity.
  - unfold bind at 1. rewrite send_response_run by exact Hv.
    unfold bind at 1. rewrite send_header_run by exact Hv.
    destruct ((200 <=? code) && negb ((code =? 204) || (code =? 205) || (code =? 304)));
      cbn [andb body headers status reason].
    + unfold bind at 1. unfold bind at 1. rewrite send_header_run by exact Hv.
      rewrite send_header_run by exact Hv.
      unfold bind at 1. rewrite end_headers_run by exact Hv.
      destruct (negb (String.eqb (error_page e code message) "")); reflexivity.
    + unfold bind at 1. cbn [ret].
      unfold bind at 1. rewrite end_headers_run by exact Hv. reflexivity.
Qed.

Lemma do_OPTIONS_chunks v e rq :
  wfile (snd (do_OPTIONS e rq (start v))) = response_chunks v (preflight_response e).
Proof.
  unfold response_chunks, do_OPTIONS.
  destruct (is_http09 v) eqn:Hv.
  - unfold bind at 1. rewrite send_response_09 by exact Hv.
    rewrite end_headers_09 by exact Hv. reflexivity.
  - unfold bind at 1. rewrite send_response_run by exact Hv.
    rewrite end_headers_run by exact Hv. reflexivity.
Qed.

Lemma header_lines_app hs1 hs2 :
  header_lines (hs1 ++ hs2) = (header_lines hs1 ++ header_lines hs2)%list.
Proof. apply map_app. Qed.

Lemma super_do_GET_chunks v e rq :
  wfile (snd (super_do_GET e rq (start v)))
  = response_chunks v (static_response e (path rq)).
Proof.
  unfold response_chunks, super_do_GET, static_response.
  destruct (is_http09 v) eqn:Hv.
  - unfold bind at 1. rewrite send_response_09 by exact Hv.
    unfold bind at 1. rewrite send_headers_09 by exact Hv.
    unfold bind at 1. rewrite end_headers_09 by exact Hv.
    cbn [body]. destruct (String.eqb (st_body (static_do_GET e (path rq))) ""); reflexivity.
  - unfold bind at 1. rewrite send_response_run by exact Hv.
    unfold bind at 1. rewrite send_headers_run by exact Hv.
    unfold bind at 1. rewrite end_headers_run by exact Hv.
    cbn [body headers status reason request_version headers_buffer wfile].
    rewrite !header_lines_app.
    destruct (String.eqb (st_body (static_do_GET e (path rq))) ""); cbn;
      rewrite <- ?app_assoc; reflexivity.
Qed.

Lemma super_do_HEAD_chunks v e p :
  wfile (snd (super_do_HEAD e p (start v)))
  = response_chunks v {| status := st_code (static_do_GET e p);
                         reason := st_message (static_do_GET e p);
                         headers := (base_headers e ++ st_headers (static_do_GET e p)
                                     ++ fixed_headers)%list;
                         body := [] |}.
Proof.
  unfold response_chunks, super_do_HEAD.
  destruct (is_http09 v) eqn:Hv.
  - unfold bind at 1. rewrite send_response_09 by exact Hv.
    unfold bind at 1. rewrite send_headers_09 by exact Hv.
    rewrite end_headers_09 by exact Hv. reflexivity.
  - unfold bind at 1. rewrite send_response_run by exact Hv.
    unfold bind at 1. rewrite send_headers_run by exact Hv.
    rewrite end_headers_run by exact Hv.
    cbn [body headers status reason request_version headers_buffer wfile].
    rewrite !header_lines_app. cbn. rewrite <- ?app_assoc. reflexivity.
Qed.

Lemma dispatch_plan_at e rq h :
  dispatch e rq h = perform e rq (plan e rq) h.
Proof.
  unfold dispatch, plan.
  destruct (rq_command rq); [reflexivity| |].
  - unfold do_GET, handle_api_get.
    destruct (String.prefix "/api/" (path rq)); [|reflexivity].
    destruct (String.eqb (path rq) "/api/health");
      [cbn [perform]; apply try_except_ok; exists tt; apply send_json_response_returns|].
    destruct (String.eqb (path rq) "/api/config");
      [cbn [perform]; apply try_except_ok; exists tt; apply send_json_response_returns|].
    cbn [perform]. apply try_except_ok. exists tt. apply send_error_returns.
  - unfold do_POST.
    destruct (String.prefix "/api/" (path rq)); [|reflexivity].
    unfold handle_api_post, read_json, try_except, bind, lift, rbind.
    destruct (py_int (content_length rq)) as [n|ex]; [|destruct ex; reflexivity].
    destruct (rfile_read n (rfile rq)) as [b|ex]; [|destruct ex; reflexivity].
    destruct (decode_utf8 b) as [text|ex]; [|destruct ex; reflexivity].
    destruct (json_loads text) as [data|ex]; [|destruct ex; reflexivity].
    unfold api_post_route, bind, lift, ret.
    assert (Hj : forall r h0,
               match send_json_response e r h0 with
               | (Ok a, h') => (Ok a, h')
               | (Raise ex, h') => api_post_except e ex h'
               end = send_json_response e r h0).
    { intros r h0. pose proof (send_json_response_returns e r h0) as Hs.
      destruct (send_json_response e r h0) as [[[]|ex] h']; [reflexivity|discriminate]. }
    destruct (String.eqb (path rq) "/api/auth/login");
      [destruct (handle_login e data) as [r|ex];
       [cbn [handler_reply perform]; apply Hj|destruct ex; reflexivity]|].
    destruct (String.eqb (path rq) "/api/auth/register");
      [destruct (handle_register e data) as [r|ex];
       [cbn [handler_reply perform]; apply Hj|destruct ex; reflexivity]|].
    destruct (String.eqb (path rq) "/api/training/sessions");
      [cbn [handle_training_session handler_reply perform]; apply Hj|].
    destruct (String.eqb (path rq) "/api/ai/analysis");
      [cbn [handle_ai_analysis handler_reply perform]; apply Hj|].
    cbn [perform].
    pose proof (send_error_returns e 404 "API endpoint not found" h) as Hs.
    destruct (send_error e 404 "API endpoint not found" h) as [[[]|ex] h'];
      [reflexivity|discriminate].
Qed.

Lemma perform_chunks v e rq p :
  wfile (snd (perform e rq p (start v))) = response_chunks v (reply_response e rq p).
Proof.
  destruct p as [data|code message| |]; cbn [perform reply_response].
  - apply send_json_response_chunks.
  - apply send_error_chunks.
  - apply do_OPTIONS_chunks.
  - apply super_do_GET_chunks.
Qed.

Lemma header_fields_lines hs : header_fields (header_lines hs) = hs.
Proof. apply header_fields_map. Qed.

Lemma response_chunks_fixed v r :
  has_fixed_headers r -> Forall block_has_fixed_headers (response_chunks v r).
Proof.
  intros Hr. unfold response_chunks.
  assert (Hb : Forall block_has_fixed_headers (map Body (body r))).
  { induction (body r); constructor; [exact I|assumption]. }
  destruct (is_http09 v); [exact Hb|].
  constructor; [|exact Hb].
  cbn [block_has_fixed_headers header_fields]. rewrite header_fields_lines. exact Hr.
Qed.

Lemma response_chunks_09 v r :
  is_http09 v = true -> Forall (fun c => exists p, c = Body p) (response_chunks v r).
Proof.
  intros Hv. unfold response_chunks. rewrite Hv.
  induction (body r); constructor; eauto.
Qed.

Lemma fixed_reply e rq p : has_fixed_headers (reply_response e rq p).
Proof.
  destruct p; cbn [reply_response];
    [apply fixed_json|apply fixed_error| |apply fixed_static].
  unfold has_fixed_headers. cbn [headers preflight_response]. apply incl_appr, incl_refl.
Qed.

Lemma serve_chunks v e i :
  exists r, has_fixed_headers r /\ serve v e i = response_chunks v r.
Proof.
  unfold serve. destruct i as [rq|p|code message]; cbn [handle_one_request].
  - rewrite dispatch_plan_at, perform_chunks. eexists. split; [apply fixed_reply|reflexivity].
  - rewrite super_do_HEAD_chunks. eexists. split; [|reflexivity].
    unfold has_fixed_headers. cbn [headers]. apply incl_appr, incl_appr, incl_refl.
  - rewrite send_error_chunks. eexists. split; [apply fixed_error|reflexivity].
Qed.

(** C6, as the code has it.  Every header block the server sends carries
    the six fixed fields (the three Access-Control-Allow fields,
    Cache-Control, Pragma and Expires, with the values of the
    specification): the blocks of the JSON responses, of the 404, 400 and
    500 error responses, of the preflight response, of the static file
    server for GET and HEAD, and of the errors the base class sends by
    itself.  Only a response without header block is without them: in
    HTTP/0.9 mode (a request line without version, or one refused before
    its version was accepted) the server sends the body alone.  In every
    other mode the output for an OPTIONS, GET or POST request is the one
    the other statements describe, and a request the base class refuses
    gets the error response with its header block. *)
Theorem header_blocks_carry_fixed_headers v e i :
  Forall (fun c =>
            match c with
            | Head ls =>
                incl [ ("Access-Control-Allow-Origin", "*");
                       ("Access-Control-Allow-Methods", "GET, POST, PUT, DELETE, OPTIONS");
                       ("Access-Control-Allow-Headers", "Content-Type, Authorization");
                       ("Cache-Control", "no-cache, no-store, must-revalidate");
                       ("Pragma", "no-cache");
                       ("Expires", "0") ]
                     (header_fields ls)
            | Body _ => True
            end)
         (serve v e i) /\
  (is_http09 v = true -> Forall (fun c => exists p, c = Body p) (serve v e i)) /\
  (is_http09 v = false ->
   (forall rq, i = Dispatch rq -> serve v e i = handle e rq) /\
   (forall code message,
       i = Refuse code message ->
       responses_on (serve v e i) = [error_response e code message])).
Proof.
  split; [|split].
  - destruct (serve_chunks v e i) as (r & Hr & ->).
    exact (response_chunks_fixed v r Hr).
  - intros Hv. destruct (serve_chunks v e i) as (r & _ & ->).
    exact (response_chunks_09 v r Hv).
  - intros Hv. split.
    + intros rq ->. unfold serve, handle. cbn [handle_one_request].
      change fresh with (start "HTTP/1.1").
      rewrite !dispatch_plan_at, !perform_chunks.
      unfold response_chunks. rewrite Hv. reflexivity.
    + intros code message ->. unfold serve. cbn [handle_one_request].
      rewrite send_error_chunks. unfold response_chunks. rewrite Hv.
      cbn [responses_on header_fields]. rewrite header_fields_lines.
      destruct (error_response e code message) as [st rs hs bs].
      cbn [status reason headers body].
      assert (Hb : forall l, leading_bodies (map Body l) = l /\ responses_on (map Body l) = []).
      { induction l as [|x l [IH1 IH2]]; [split; reflexivity|].
        split; cbn; [rewrite IH1; reflexivity|exact IH2]. }
      destruct (Hb bs) as [-> ->]. reflexivity.
Qed.

Lemma header_blocks_carry_fixed_headers_witness :
  serve "HTTP/1.0" sample_env (Dispatch (get "/api/config"))
  = handle sample_env (get "/api/config") /\
  responses_on (serve "HTTP/1.0" sample_env (Refuse 501 "Unsupported method ('PUT')"))
  = [error_response sample_env 501 "Unsupported method ('PUT')"].
Proof.
  destruct (header_blocks_carry_fixed_headers "HTTP/1.0" sample_env
              (Dispatch (get "/api/config"))) as (_ & _ & H1).
  destruct (header_blocks_carry_fixed_headers "HTTP/1.0" sample_env
              (Refuse 501 "Unsupported method ('PUT')")) as (_ & _ & H2).
  split.
  - apply (proj1 (H1 eq_refl)). reflexivity.
  - apply (proj2 (H2 eq_refl)). reflexivity.
Defined.

(** C6 as stated fails: a GET of /api/config whose request line has no
    version is handled in HTTP/0.9 mode and answered by the JSON body
    alone, without status line and without any of the six headers; so is a
    request line refused for its version, answered by the bare error
    page. *)
Lemma response_without_headers_counterexample :
  serve "HTTP/0.9" sample_env (Dispatch (get "/api/config"))
  = [Body (JsonText config)] /\
  ~ (exists ls, In (Head ls) (serve "HTTP/0.9" sample_env (Dispatch (get "/api/config")))) /\
  serve "HTTP/0.9" sample_env (Refuse 400 "Bad request version ('HTTP/x')")
  = [Body (Bytes (error_page sample_env 400 "Bad request version ('HTTP/x')"))].
Proof.
  split; [vm_compute; reflexivity|].
  split; [|vm_compute; reflexivity].
  intros [ls H]. vm_compute in H. destruct H as [H|[]]. discriminate H.
Qed.
